(** * ai-editor-docs: the extension API and the default chat extension

    A shallow embedding of [extensions/common/api.py] and
    [extensions/default.py], followed by the properties of the protocol
    bridge: the block/tag streaming loop, the context assembler and the
    message construction.

    Conventions of the embedding.
    - A Python [str] is a [string]; its characters stand for code points
      below 256 (every literal of the two source files is in that range).
    - A method that prints, mutates [self._blocks], talks to the model or
      raises is a computation in the monad [M]: a function from the state
      of the invocation to a result (a value or a raised exception) and the
      state afterwards.
    - The file system and the chunks the upstream yields are inputs of the
      invocation, passed explicitly. *)

From Stdlib Require Import String Ascii List ZArith Bool Arith Lia DecimalString.
Import ListNotations.
Open Scope string_scope.

(* ===================================================================== *)
(** ** Python built-ins used by the source *)
(* ===================================================================== *)

Module Py.

(** [chr n], for the characters a Rocq literal cannot hold. *)
Definition chr (n : nat) : string := String (ascii_of_nat n) "".

Definition nl : string := chr 10.
Definition squote : ascii := ascii_of_nat 39.
Definition dquote : ascii := ascii_of_nat 34.
Definition backslash : ascii := ascii_of_nat 92.

(** [str.isspace] on one code point below 256: TAB..CR, FS..US, SPACE,
    NEL (0x85) and NBSP (0xa0). *)
Definition isspace (c : ascii) : bool :=
  let n := nat_of_ascii c in
  (((9 <=? n) && (n <=? 13)) || ((28 <=? n) && (n <=? 32))
   || (n =? 133) || (n =? 160))%nat.

(** [s.lstrip()] *)
Fixpoint lstrip (s : string) : string :=
  match s with
  | "" => ""
  | String c s' => if isspace c then lstrip s' else s
  end.

(** [s.rstrip()] *)
Fixpoint rstrip (s : string) : string :=
  match s with
  | "" => ""
  | String c s' =>
      match rstrip s' with
      | "" => if isspace c then "" else String c ""
      | r => String c r
      end
  end.

(** [s.strip()] *)
Definition strip (s : string) : string := rstrip (lstrip s).

(** [s.startswith(p)] *)
Definition startswith (s p : string) : bool := String.prefix p s.

(** [s[1:]] *)
Definition tail (s : string) : string :=
  match s with
  | "" => ""
  | String _ s' => s'
  end.

(** [sep.join(l)] *)
Fixpoint join (sep : string) (l : list string) : string :=
  match l with
  | [] => ""
  | [x] => x
  | x :: xs => x ++ sep ++ join sep xs
  end.

(** [str(n)] for an [int] *)
Definition str_int (n : Z) : string := NilZero.string_of_int (Z.to_int n).

(** Truth value of an [Optional[str]]: [None] and [''] are false. *)
Definition truthy (o : option string) : bool :=
  match o with
  | Some s => negb (s =? "")
  | None => false
  end.

(** *** [repr] of a [str] and of a list of [str] *)

Definition hexdigit (n : nat) : ascii :=
  match get n "0123456789abcdef" with
  | Some c => c
  | None => "0"%char
  end.

(** [\xHH] *)
Definition hex_escape (c : ascii) : string :=
  let n := nat_of_ascii c in
  String backslash
    (String "x" (String (hexdigit (n / 16)) (String (hexdigit (n mod 16)) ""))).

(** [str.isprintable] on one code point of 0x80..0xff: the C1 controls,
    NBSP and the soft hyphen are not printable. *)
Definition isprintable_high (c : ascii) : bool :=
  let n := nat_of_ascii c in
  ((161 <=? n) && negb (n =? 173))%nat.

Fixpoint contains_char (c : ascii) (s : string) : bool :=
  match s with
  | "" => false
  | String d s' => Ascii.eqb c d || contains_char c s'
  end.

Definition repr_char (quote c : ascii) : string :=
  let n := nat_of_ascii c in
  if Ascii.eqb c quote || Ascii.eqb c backslash then String backslash (String c "")
  else if (n =? 9)%nat then String backslash "t"
  else if (n =? 10)%nat then String backslash "n"
  else if (n =? 13)%nat then String backslash "r"
  else if ((n <? 32) || (n =? 127))%nat then hex_escape c
  else if (n <? 127)%nat then String c ""
  else if isprintable_high c then String c ""
  else hex_escape c.

Fixpoint repr_body (quote : ascii) (s : string) : string :=
  match s with
  | "" => ""
  | String c s' => repr_char quote c ++ repr_body quote s'
  end.

(** [repr(s)]: single quotes, unless [s] holds a single quote and no
    double quote. *)
Definition repr_str (s : string) : string :=
  let quote :=
    if contains_char squote s && negb (contains_char dquote s)
    then dquote else squote in
  String quote (repr_body quote s ++ String quote "").

(** [repr(l)], which is what an f-string prints for a list. *)
Definition repr_list (l : list string) : string :=
  "[" ++ join ", " (map repr_str l) ++ "]".

End Py.

(* ===================================================================== *)
(** ** The invocation monad *)
(* ===================================================================== *)

(** The exceptions the two files can raise. [OSError] stands for what
    [open]/[read] raise on a file that cannot be read
    ([FileNotFoundError] and its siblings); it carries the path. *)
Inductive Exception : Type :=
| KeyError (key : string)
| TypeError
| IndexError
| AssertionError
| OSError (fs_path : string).

Inductive Result (A : Type) : Type :=
| Ok (a : A)
| Raise (e : Exception).
Arguments Ok {A} a.
Arguments Raise {A} e.

(** A JSON value as [_dump] receives it in a keyword argument. *)
Inductive Json : Type :=
| JStr (s : string)
| JLines (l : list string)
| JMatches (m : list (list Z)).

(** A [dict] with string keys, in insertion order. *)
Definition Dict (V : Type) : Type := list (string * V).

Fixpoint dict_get {V} (d : Dict V) (k : string) : option V :=
  match d with
  | [] => None
  | (k', v) :: d' => if k' =? k then Some v else dict_get d' k
  end.

(** [k in d] *)
Definition has_key {V} (d : Dict V) (k : string) : bool :=
  match dict_get d k with
  | Some _ => true
  | None => false
  end.

(** One record written to the host: the dict that [_dump] serialises. *)
Definition OutboundEvent : Type := Dict Json.

(** The request [client.chat.completions.create] sends. *)
Record Request : Type := {
  req_api_key : string;
  req_base_url : string;
  req_model : string;
  req_messages : list (Dict string);
  req_stream : bool;
  req_temperature : Z;
  req_top_p : Z;
  req_reasoning_max_tokens : Z
}.

(** What one invocation changes: the block stack of the API object
    ([self._blocks], the last element is the top), the records printed so
    far and the requests made to the model so far. *)
Record State : Type := {
  _blocks : list string;
  stdout : list OutboundEvent;
  requests : list Request
}.

Definition M (A : Type) : Type := State -> Result A * State.

Definition ret {A} (a : A) : M A := fun s => (Ok a, s).

Definition raise {A} (e : Exception) : M A := fun s => (Raise e, s).

Definition bind {A B} (c : M A) (k : A -> M B) : M B :=
  fun s =>
    match c s with
    | (Ok a, s') => k a s'
    | (Raise e, s') => (Raise e, s')
    end.

Notation "x <- c ;; k" := (bind c (fun x => k))
  (at level 61, c at next level, right associativity).
Notation "c ;; k" := (bind c (fun _ => k))
  (at level 61, right associativity).

(** [assert b] *)
Definition assert (b : bool) : M unit :=
  if b then ret tt else raise AssertionError.

(** [[f(x) for x in l]] with an [f] that may raise. *)
Fixpoint mapM {A B} (f : A -> M B) (l : list A) : M (list B) :=
  match l with
  | [] => ret []
  | x :: xs => y <- f x ;; ys <- mapM f xs ;; ret (y :: ys)
  end.

Definition print (e : OutboundEvent) : M unit :=
  fun s => (Ok tt, {| _blocks := _blocks s;
                      stdout := stdout s ++ [e];
                      requests := requests s |}).

Definition set_blocks (bs : list string) : M unit :=
  fun s => (Ok tt, {| _blocks := bs; stdout := stdout s; requests := requests s |}).

Definition get_blocks : M (list string) := fun s => (Ok (_blocks s), s).

Definition send (r : Request) : M unit :=
  fun s => (Ok tt, {| _blocks := _blocks s;
                      stdout := stdout s;
                      requests := requests s ++ [r] |}).

(** The state before anything has happened. *)
Definition initial : State := {| _blocks := []; stdout := []; requests := [] |}.

(* ===================================================================== *)
(** ** [extensions/common/api.py] *)
(* ===================================================================== *)

Definition TAGS : Dict string := [("think", "collapse"); ("meta", "metadata")].

(** [d[k]] *)
Definition getitem {V} (d : Dict V) (k : string) : M V :=
  match dict_get d k with
  | Some v => ret v
  | None => raise (KeyError k)
  end.

(** The files of the host at the time of the invocation: the text that
    [open(p).read()] returns, [None] where it raises. *)
Definition FS : Type := string -> option string.

(** *** [class File]. [Path] is kept as the string it is built from. *)
Record File : Type := {
  path : string;
  _fs_path : string
}.

Definition File__init__ (path repo_path : string) : File :=
  {| path := path; _fs_path := repo_path ++ "/" ++ path |}.

Definition File_exists (fs : FS) (f : File) : bool :=
  match fs (_fs_path f) with
  | Some _ => true
  | None => false
  end.

Definition get_content (fs : FS) (f : File) : M string :=
  match fs (_fs_path f) with
  | Some text => ret text
  | None => raise (OSError (_fs_path f))
  end.

(** *** [class Message] *)
Record Message : Type := {
  role : string;
  content : string
}.

(** The constructor, applied to a dict of keyword arguments. A key [self]
    collides with the first parameter of [__init__]: the call raises a
    type error before the body runs. *)
Definition Message__init__ (kwargs : Dict string) : M Message :=
  if has_key kwargs "self" then raise TypeError
  else
    r <- getitem kwargs "role" ;;
    c <- getitem kwargs "content" ;;
    ret {| role := r; content := c |}.

Definition to_dict (m : Message) : Dict string :=
  [("role", role m); ("content", content m)].

(** *** The invocation payload

    The keyword arguments of [load], with the value each key carries when
    it is present. *)
Inductive Key : Type :=
| k_current_file_content | k_selection | k_cursor_row | k_cursor_column
| k_api_key | k_api_url | k_prompt | k_terminal_history
| k_terminal_snapshot | k_repo_path | k_current_file | k_edit_file
| k_repo | k_opened_files | k_chat_history.

Definition key_name (k : Key) : string :=
  match k with
  | k_current_file_content => "current_file_content"
  | k_selection => "selection"
  | k_cursor_row => "cursor_row"
  | k_cursor_column => "cursor_column"
  | k_api_key => "api_key"
  | k_api_url => "api_url"
  | k_prompt => "prompt"
  | k_terminal_history => "terminal_history"
  | k_terminal_snapshot => "terminal_snapshot"
  | k_repo_path => "repo_path"
  | k_current_file => "current_file"
  | k_edit_file => "edit_file"
  | k_repo => "repo"
  | k_opened_files => "opened_files"
  | k_chat_history => "chat_history"
  end.

Definition key_type (k : Key) : Type :=
  match k with
  | k_current_file_content | k_api_key | k_api_url | k_prompt
  | k_repo_path | k_current_file | k_edit_file => string
  | k_selection | k_terminal_history => option string
  | k_cursor_row | k_cursor_column => Z
  | k_terminal_snapshot => option (list string)
  | k_repo | k_opened_files => list string
  | k_chat_history => list (Dict string)
  end.

(** [kwargs k] is [None] when the key is not in the payload. *)
Definition Kwargs : Type := forall k : Key, option (key_type k).

(** [kwargs[k]] *)
Definition kw (kwargs : Kwargs) (k : Key) : M (key_type k) :=
  match kwargs k with
  | Some v => ret v
  | None => raise (KeyError (key_name k))
  end.

(** [kwargs.get(k, None)], for the keys whose value may be [None]. *)
Definition kw_get {A} (o : option (option A)) : option A :=
  match o with
  | Some v => v
  | None => None
  end.

(** *** [class ExtensionAPI], the attributes [load] sets
    ([_blocks] is in the [State]). *)
Record ExtensionAPI : Type := {
  current_file_content : string;
  selection : option string;
  cursor_row : Z;
  cursor_column : Z;
  api_key : string;
  api_url : string;
  prompt : string;
  terminal_history : option string;
  terminal_snapshot : option (list string);
  repo_path : string;
  current_file : File;
  edit_file : option File;
  repo_files : list File;
  opened_files : list File;
  chat_history : list Message
}.

Definition load (kwargs : Kwargs) : M ExtensionAPI :=
  current_file_content' <- kw kwargs k_current_file_content ;;
  selection' <- kw kwargs k_selection ;;
  cursor_row' <- kw kwargs k_cursor_row ;;
  cursor_column' <- kw kwargs k_cursor_column ;;
  api_key' <- kw kwargs k_api_key ;;
  api_url' <- kw kwargs k_api_url ;;
  prompt' <- kw kwargs k_prompt ;;
  let terminal_history' := kw_get (kwargs k_terminal_history) in
  let terminal_snapshot' := kw_get (kwargs k_terminal_snapshot) in
  repo_path' <- kw kwargs k_repo_path ;;
  current_file' <- kw kwargs k_current_file ;;
  let edit_file' :=
    match kwargs k_edit_file with
    | Some p => Some (File__init__ p repo_path')
    | None => None
    end in
  repo' <- kw kwargs k_repo ;;
  opened_files' <- kw kwargs k_opened_files ;;
  chat_history' <- kw kwargs k_chat_history ;;
  chat_history'' <- mapM Message__init__ chat_history' ;;
  set_blocks [] ;;
  ret {| current_file_content := current_file_content';
         selection := selection';
         cursor_row := cursor_row';
         cursor_column := cursor_column';
         api_key := api_key';
         api_url := api_url';
         prompt := prompt';
         terminal_history := terminal_history';
         terminal_snapshot := terminal_snapshot';
         repo_path := repo_path';
         current_file := File__init__ current_file' repo_path';
         edit_file := edit_file';
         repo_files := map (fun p => File__init__ p repo_path') repo';
         opened_files := map (fun p => File__init__ p repo_path') opened_files';
         chat_history := chat_history'' |}.

(** [_dump(method, **kwargs)]. Keyword arguments named [self] or [method]
    collide with the parameters: the call raises a type error before the
    body runs. *)
Definition _dump (method : string) (kwargs : Dict Json) : M unit :=
  if has_key kwargs "self" || has_key kwargs "method" then raise TypeError
  else
    assert (negb (has_key kwargs "method")) ;;
    print (kwargs ++ [("method", JStr method)])%list.

Definition push_to_chat (content : string) : M unit :=
  _dump "push_chat" [("content", JStr content)].

Definition start_block (type_ : string) : M unit :=
  tag <- getitem TAGS type_ ;;
  push_to_chat ("<" ++ tag ++ ">") ;;
  bs <- get_blocks ;;
  set_blocks (bs ++ [tag])%list.

Definition end_block : M unit :=
  bs <- get_blocks ;;
  assert (0 <? length bs)%nat ;;
  let tag := last bs "" in
  set_blocks (removelast bs) ;;
  push_to_chat ("</" ++ tag ++ ">").

Definition push_block (type_ content : string) : M unit :=
  start_block type_ ;;
  push_to_chat content ;;
  end_block.

Definition push_meta (content : string) : M unit :=
  start_block "meta" ;;
  push_to_chat content ;;
  end_block.

Definition apply_diff (patch : list string) (matches : list (list Z)) : M unit :=
  _dump "apply_diff" [("patch", JLines patch); ("matches", JMatches matches)].

Definition terminate_chat : M unit :=
  _dump "terminate_chat" [].

Definition log (content : string) : M unit :=
  _dump "log" [("content", JStr content)].

(** The records of the outbound protocol, as [_dump] prints them. *)
Definition PushChat (content : string) : OutboundEvent :=
  [("content", JStr content); ("method", JStr "push_chat")].

Definition TerminateChat : OutboundEvent :=
  [("method", JStr "terminate_chat")].

Definition Log (content : string) : OutboundEvent :=
  [("content", JStr content); ("method", JStr "log")].

(* ===================================================================== *)
(** ** The upstream model API *)
(* ===================================================================== *)

(** The chunks of a streamed chat completion, with the attributes
    [call_llm] reads. [reasoning] is [None] also where the delta has no
    such attribute ([getattr] with a default). *)
Module OpenAI.

Record Delta : Type := {
  reasoning : option string;
  content : option string
}.

Record Choice : Type := {
  delta : Delta
}.

Record Usage : Type := {
  prompt_tokens : Z
}.

Record Chunk : Type := {
  choices : list Choice;
  usage : option Usage
}.

End OpenAI.

(* ===================================================================== *)
(** ** [extensions/default.py] *)
(* ===================================================================== *)

Definition get_system_prompt (model : string) : string :=
  Py.strip (Py.join Py.nl
    ["";
     "You are an intelligent programmer, powered by " ++ model ++ ". You are happy to help answer any questions that the user has (usually they will be about coding).";
     "";
     "1. When the user is asking for edits to their code, please output a simplified version of the code block that highlights the changes necessary and adds comments to indicate where unchanged code has been skipped. For example:";
     "";
     "```language:path/to/file";
     "// ... existing code ...";
     "{ edit_1 }";
     "// ... existing code ...";
     "{ edit_2 }";
     "// ... existing code ...";
     "```";
     "";
     "The user can see the entire file, so they prefer to only read the updates to the code. Often this will mean that the start/end of the file will be skipped, but that's okay! Rewrite the entire file only if specifically requested. Always provide a brief explanation of the updates, unless the user specifically requests only the code.";
     "";
     "These edit codeblocks are also read by a less intelligent language model, colloquially called the apply model, to update the file. To help specify the edit to the apply model, you will be very careful when generating the codeblock to not introduce ambiguity. You will specify all unchanged regions (code and comments) of the file with " ++ Py.chr 226 ++ Py.chr 128 ++ Py.chr 156 ++ "// " ++ Py.chr 226 ++ Py.chr 128 ++ Py.chr 166 ++ " existing code " ++ Py.chr 226 ++ Py.chr 128 ++ Py.chr 166 ++ Py.chr 226 ++ Py.chr 128 ++ Py.chr 157 ++ " comment markers. This will ensure the apply model will not delete existing unchanged code or comments when editing the file. You will not mention the apply model.";
     "";
     "2. Do not lie or make up facts.";
     "";
     "3. Format your response in markdown.";
     "";
     "4. When writing out new code blocks, please specify the language ID after the initial backticks, like so: ";
     "";
     "```python";
     "{ code }";
     "```";
     "";
     "5. When writing out code blocks for an existing file, please also specify the file path after the initial backticks and restate the method / class your codeblock belongs to, like so:";
     "";
     "```language:some/other/file";
     "function AIChatHistory() {";
     "    ...";
     "    { code }";
     "    ...";
     "}";
     "```";
     ""]).

Definition _format_code_block (content : string) : string :=
  "```" ++ Py.nl ++ content ++ Py.nl ++ "```".

Definition _format_section (title content : string) : string :=
  "## " ++ title ++ Py.nl ++ Py.nl ++ content.

(** [api.selection and api.selection.strip()] as a condition. *)
Definition selection_given (api : ExtensionAPI) : bool :=
  match selection api with
  | Some s => negb (s =? "") && negb (Py.strip s =? "")
  | None => false
  end.

(** The body of [build_context] up to its [return]: the value is the list
    [context] of the sections. *)
Definition build_context_sections (fs : FS) (api : ExtensionAPI) : M (list string) :=
  let context := [] in
  context <-
    match opened_files api with
    | [] => ret context
    | _ =>
        opened_files' <-
          mapM (fun f =>
                  text <- get_content fs f ;;
                  ret ("Path: `" ++ path f ++ "`" ++ Py.nl ++ Py.nl
                       ++ _format_code_block text))
               (opened_files api) ;;
        ret (context ++ [_format_section "Other relevant files"
                           (Py.join (Py.nl ++ Py.nl) opened_files')])%list
    end ;;
  push_to_chat (Py.nl ++ "<metadata> Opened Files: "
                ++ Py.repr_list (map path (opened_files api))
                ++ " </metadata>" ++ Py.nl) ;;
  let context :=
    (context ++ [_format_section "Current File"
                   ("Here is the file I'm looking at (`"
                    ++ path (current_file api) ++ "`):" ++ Py.nl ++ Py.nl
                    ++ _format_code_block (current_file_content api))])%list in
  push_to_chat (Py.nl ++ "<metadata> Current File: "
                ++ path (current_file api) ++ " </metadata>" ++ Py.nl) ;;
  let context :=
    if selection_given api then
      (context ++ [_format_section "Selection"
                     ("This is the code snippet that I'm referring to"
                      ++ Py.nl ++ Py.nl
                      ++ _format_code_block
                           (match selection api with Some s => s | None => "" end))])%list
    else context in
  ret context.

Definition build_context (fs : FS) (api : ExtensionAPI) : M string :=
  context <- build_context_sections fs api ;;
  ret (Py.join (Py.nl ++ Py.nl) context).

(** [chunk.choices[0]] *)
Definition first_choice (chunk : OpenAI.Chunk) : M OpenAI.Choice :=
  match OpenAI.choices chunk with
  | c :: _ => ret c
  | [] => raise IndexError
  end.

(** The [for chunk in stream] loop of [call_llm]; the value is the flag
    [thinking] when the stream is exhausted. *)
Fixpoint stream_loop (model : string) (thinking : bool)
    (stream : list OpenAI.Chunk) : M bool :=
  match stream with
  | [] => ret thinking
  | chunk :: stream' =>
      choice <- first_choice chunk ;;
      let delta := OpenAI.delta choice in
      thinking <-
        (if Py.truthy (OpenAI.reasoning delta) then
           thinking <-
             (if negb thinking then
                push_to_chat "<collapse>" ;;
                ret true
              else ret thinking) ;;
           push_to_chat
             (match OpenAI.reasoning delta with Some r => r | None => "" end) ;;
           ret thinking
         else ret thinking) ;;
      thinking <-
        (if Py.truthy (OpenAI.content delta) then
           thinking <-
             (if thinking then
                push_to_chat "</collapse>" ;;
                ret false
              else ret thinking) ;;
           push_to_chat
             (match OpenAI.content delta with Some c => c | None => "" end) ;;
           ret thinking
         else ret thinking) ;;
      match OpenAI.usage chunk with
      | Some u =>
          let prompt_tokens := OpenAI.prompt_tokens u in
          push_to_chat (Py.nl ++ "<metadata> number of tokens used in prompt: "
                        ++ Py.str_int prompt_tokens ++ " model: " ++ model
                        ++ " </metadata>" ++ Py.nl)
      | None => ret tt
      end ;;
      stream_loop model thinking stream'
  end.

(** [stream] is what the upstream yields for the request. *)
Definition call_llm (api : ExtensionAPI) (model : string)
    (messages : list (Dict string)) (stream : list OpenAI.Chunk) : M unit :=
  send {| req_api_key := api_key api;
          req_base_url := api_url api;
          req_model := model;
          req_messages := messages;
          req_stream := true;
          req_temperature := 1;
          req_top_p := 1;
          req_reasoning_max_tokens := 1500 |} ;;
  let thinking := false in
  _ <- stream_loop model thinking stream ;;
  terminate_chat.

(** The message list that [extension] builds from the assembled context. *)
Definition build_messages (model : string) (api : ExtensionAPI)
    (context : string) : list (Dict string) :=
  let prompt' := Py.strip (prompt api) in
  if Py.startswith prompt' "/" then
    let prompt' := Py.strip (Py.tail prompt') in
    ([[("role", "system"); ("content", get_system_prompt model)]]
     ++ map to_dict (chat_history api)
     ++ [[("role", "user"); ("content", prompt api)]])%list
  else
    ([[("role", "system"); ("content", get_system_prompt model)];
      [("role", "user"); ("content", context)]]
     ++ map to_dict (chat_history api)
     ++ [[("role", "user"); ("content", prompt api)]])%list.

Definition the_model : string := "anthropic/claude-sonnet-4".

Definition extension (fs : FS) (api : ExtensionAPI)
    (stream : list OpenAI.Chunk) : M unit :=
  let model := the_model in
  context <- build_context fs api ;;
  let messages := build_messages model api context in
  log ("messages " ++ Py.str_int (Z.of_nat (length messages))) ;;
  log ("prompt " ++ prompt api) ;;
  terminal_snapshot' <-
    match terminal_snapshot api with
    | Some lines => ret (Py.join Py.nl lines)
    | None => raise TypeError
    end ;;
  log ("## Terminal " ++ terminal_snapshot') ;;
  call_llm api model messages stream.

(* ===================================================================== *)
(** ** Vocabulary of the properties *)
(* ===================================================================== *)

(** The state after the records [evs] have been printed. *)
Definition emit (evs : list OutboundEvent) (s : State) : State :=
  {| _blocks := _blocks s; stdout := stdout s ++ evs; requests := requests s |}.

(** [c] ends with [r] after printing exactly [evs], from every state, and
    touches neither the block stack nor the requests. *)
Definition Emits {A} (c : M A) (r : Result A) (evs : list OutboundEvent) : Prop :=
  forall s, c s = (r, emit evs s).

(** The request [call_llm] makes. *)
Definition request_of (api : ExtensionAPI) (model : string)
    (messages : list (Dict string)) : Request :=
  {| req_api_key := api_key api;
     req_base_url := api_url api;
     req_model := model;
     req_messages := messages;
     req_stream := true;
     req_temperature := 1;
     req_top_p := 1;
     req_reasoning_max_tokens := 1500 |}.

(** The state after the request [r] has been sent. *)
Definition sent (r : Request) (s : State) : State :=
  {| _blocks := _blocks s; stdout := stdout s; requests := requests s ++ [r] |}.

(** Chunks that carry one thing each. *)
Definition reasoning_chunk (text : string) : OpenAI.Chunk :=
  {| OpenAI.choices :=
       [{| OpenAI.delta := {| OpenAI.reasoning := Some text;
                              OpenAI.content := None |} |}];
     OpenAI.usage := None |}.

Definition content_chunk (text : string) : OpenAI.Chunk :=
  {| OpenAI.choices :=
       [{| OpenAI.delta := {| OpenAI.reasoning := None;
                              OpenAI.content := Some text |} |}];
     OpenAI.usage := None |}.

Definition usage_chunk (n : Z) : OpenAI.Chunk :=
  {| OpenAI.choices :=
       [{| OpenAI.delta := {| OpenAI.reasoning := None;
                              OpenAI.content := None |} |}];
     OpenAI.usage := Some {| OpenAI.prompt_tokens := n |} |}.

(** The stream of the scenario: two reasoning deltas, two content deltas,
    the usage record. *)
Definition scenario_stream : list OpenAI.Chunk :=
  [reasoning_chunk "Let's "; reasoning_chunk "think";
   content_chunk "Answer: "; content_chunk "42"; usage_chunk 10].

(** The metadata record of the usage statistics. *)
Definition usage_metadata (n : Z) (model : string) : OutboundEvent :=
  PushChat (Py.nl ++ "<metadata> number of tokens used in prompt: "
            ++ Py.str_int n ++ " model: " ++ model ++ " </metadata>" ++ Py.nl).

(** The two metadata records of the context assembler. *)
Definition opened_files_metadata (api : ExtensionAPI) : OutboundEvent :=
  PushChat (Py.nl ++ "<metadata> Opened Files: "
            ++ Py.repr_list (map path (opened_files api))
            ++ " </metadata>" ++ Py.nl).

Definition current_file_metadata (api : ExtensionAPI) : OutboundEvent :=
  PushChat (Py.nl ++ "<metadata> Current File: "
            ++ path (current_file api) ++ " </metadata>" ++ Py.nl).

(** The first opened file that cannot be read, if there is one. *)
Definition first_unreadable (fs : FS) (api : ExtensionAPI) : option File :=
  find (fun f => negb (File_exists fs f)) (opened_files api).

(** The sections of the context, as text. *)
Definition opened_file_entry (fs : FS) (f : File) : string :=
  "Path: `" ++ path f ++ "`" ++ Py.nl ++ Py.nl
  ++ _format_code_block (match fs (_fs_path f) with Some t => t | None => "" end).

Definition other_files_sections (fs : FS) (api : ExtensionAPI) : list string :=
  match opened_files api with
  | [] => []
  | _ => [_format_section "Other relevant files"
            (Py.join (Py.nl ++ Py.nl) (map (opened_file_entry fs) (opened_files api)))]
  end.

Definition current_file_section (api : ExtensionAPI) : string :=
  _format_section "Current File"
    ("Here is the file I'm looking at (`" ++ path (current_file api) ++ "`):"
     ++ Py.nl ++ Py.nl ++ _format_code_block (current_file_content api)).

Definition selection_section (sel : string) : string :=
  _format_section "Selection"
    ("This is the code snippet that I'm referring to" ++ Py.nl ++ Py.nl
     ++ _format_code_block sel).

(** The sections that do not depend on the selection. *)
Definition base_sections (fs : FS) (api : ExtensionAPI) : list string :=
  (other_files_sections fs api ++ [current_file_section api])%list.

(** [secs] has a section with the title [title]. *)
Definition has_section (title : string) (secs : list string) : Prop :=
  exists body, In (_format_section title body) secs.

(** The section of the selection, when [build_context] renders one. *)
Definition selection_sections (api : ExtensionAPI) : list string :=
  if selection_given api then
    [selection_section (match selection api with Some s => s | None => "" end)]
  else [].

Definition sections (fs : FS) (api : ExtensionAPI) : list string :=
  (base_sections fs api ++ selection_sections api)%list.

(** The snapshot with another selection. *)
Definition with_selection (api : ExtensionAPI) (sel : option string) : ExtensionAPI :=
  {| current_file_content := current_file_content api;
     selection := sel;
     cursor_row := cursor_row api;
     cursor_column := cursor_column api;
     api_key := api_key api;
     api_url := api_url api;
     prompt := prompt api;
     terminal_history := terminal_history api;
     terminal_snapshot := terminal_snapshot api;
     repo_path := repo_path api;
     current_file := current_file api;
     edit_file := edit_file api;
     repo_files := repo_files api;
     opened_files := opened_files api;
     chat_history := chat_history api |}.

(** The snapshot with another chat history. *)
Definition with_chat_history (api : ExtensionAPI) (h : list Message) : ExtensionAPI :=
  {| current_file_content := current_file_content api;
     selection := selection api;
     cursor_row := cursor_row api;
     cursor_column := cursor_column api;
     api_key := api_key api;
     api_url := api_url api;
     prompt := prompt api;
     terminal_history := terminal_history api;
     terminal_snapshot := terminal_snapshot api;
     repo_path := repo_path api;
     current_file := current_file api;
     edit_file := edit_file api;
     repo_files := repo_files api;
     opened_files := opened_files api;
     chat_history := h |}.

(** The messages of the two routing branches. *)
Definition system_message (model : string) : Dict string :=
  [("role", "system"); ("content", get_system_prompt model)].

Definition user_message (text : string) : Dict string :=
  [("role", "user"); ("content", text)].

(** Some message of [messages] has [text] as its content. *)
Definition carries (messages : list (Dict string)) (text : string) : Prop :=
  exists m, In m messages /\ dict_get m "content" = Some text.

(** The context [build_context] returns when every opened file is read. *)
Definition context_of (fs : FS) (api : ExtensionAPI) : string :=
  Py.join (Py.nl ++ Py.nl) (sections fs api).

(** What [extension] prints before it looks at the terminal snapshot: the
    two metadata records and the first two log records. *)
Definition preamble (fs : FS) (api : ExtensionAPI) : list OutboundEvent :=
  [opened_files_metadata api;
   current_file_metadata api;
   Log ("messages "
        ++ Py.str_int (Z.of_nat (length (build_messages the_model api
                                           (context_of fs api)))));
   Log ("prompt " ++ prompt api)].

(** The keys [load] reads with [kwargs[...]], in the order it reads them. *)
Definition required : list Key :=
  [k_current_file_content; k_selection; k_cursor_row; k_cursor_column;
   k_api_key; k_api_url; k_prompt; k_repo_path; k_current_file;
   k_repo; k_opened_files; k_chat_history].

Definition missing (kwargs : Kwargs) (k : Key) : bool :=
  match kwargs k with
  | Some _ => false
  | None => true
  end.

Definition first_missing (kwargs : Kwargs) : option Key :=
  find (missing kwargs) required.

(** *** Sample invocations *)

(** A repository with two readable files. *)
Definition sample_fs : FS :=
  fun p =>
    if p =? "/repo/main.py" then Some "print(1)"
    else if p =? "/repo/util.py" then Some "def f(): pass"
    else None.

(** A payload with every required key, but for the prompt when [prompt']
    is [None]; [terminal_snapshot] is present when [snapshot] is. *)
Definition sample_kwargs (prompt' : option string) (opened : list string)
    (history : list (Dict string))
    (snapshot : option (option (list string))) : Kwargs :=
  fun k =>
    match k as k' return option (key_type k') with
    | k_current_file_content => Some "print(1)"
    | k_selection => Some None
    | k_cursor_row => Some 0%Z
    | k_cursor_column => Some 0%Z
    | k_api_key => Some "sk-test"
    | k_api_url => Some "https://openrouter.ai/api/v1"
    | k_prompt => prompt'
    | k_terminal_history => None
    | k_terminal_snapshot => snapshot
    | k_repo_path => Some "/repo"
    | k_current_file => Some "main.py"
    | k_edit_file => None
    | k_repo => Some ["main.py"; "util.py"]
    | k_opened_files => Some opened
    | k_chat_history => Some history
    end.

(** The snapshot [load] builds from such a payload. *)
Definition sample_api (prompt' : string) (opened : list string)
    (history : list Message) (snapshot : option (list string)) : ExtensionAPI :=
  {| current_file_content := "print(1)";
     selection := None;
     cursor_row := 0;
     cursor_column := 0;
     api_key := "sk-test";
     api_url := "https://openrouter.ai/api/v1";
     prompt := prompt';
     terminal_history := None;
     terminal_snapshot := snapshot;
     repo_path := "/repo";
     current_file := File__init__ "main.py" "/repo";
     edit_file := None;
     repo_files := [File__init__ "main.py" "/repo"; File__init__ "util.py" "/repo"];
     opened_files := map (fun p => File__init__ p "/repo") opened;
     chat_history := history |}.

(** The context assembled for the sample snapshot with no opened file. *)
Definition sample_context : string :=
  Py.join (Py.nl ++ Py.nl) (base_sections sample_fs (sample_api "" [] [] None)).

(* ===================================================================== *)
(** ** Vocabulary of the further properties *)
(* ===================================================================== *)

(** A history dict that [Message] accepts: it has both keys, and no key
    [self]. *)
Definition well_formed_message (d : Dict string) : bool :=
  negb (has_key d "self") && has_key d "role" && has_key d "content".

(** What building a [Message] from a dict that it does not accept raises:
    a type error for a key [self], else the key error of the first of
    [role] and [content] that is missing. *)
Definition message_error (d : Dict string) : Exception :=
  if has_key d "self" then TypeError
  else KeyError (if has_key d "role" then "content" else "role").

(** The message built from a dict that [Message] accepts. *)
Definition message_of (d : Dict string) : Message :=
  {| role := match dict_get d "role" with Some r => r | None => "" end;
     content := match dict_get d "content" with Some c => c | None => "" end |}.

(** The state after [self._blocks = []]. *)
Definition reset_blocks (s : State) : State :=
  {| _blocks := []; stdout := stdout s; requests := requests s |}.

(** Opening a block for each type of a list in turn, and closing [n]
    blocks in turn. *)
Fixpoint start_blocks (types : list string) : M unit :=
  match types with
  | [] => ret tt
  | type_ :: types' => start_block type_ ;; start_blocks types'
  end.

Fixpoint end_blocks (n : nat) : M unit :=
  match n with
  | O => ret tt
  | S n' => end_block ;; end_blocks n'
  end.

Definition open_tag (tag : string) : OutboundEvent := PushChat ("<" ++ tag ++ ">").
Definition close_tag (tag : string) : OutboundEvent := PushChat ("</" ++ tag ++ ">").

(** The chunk has a first choice. *)
Definition has_choice (chunk : OpenAI.Chunk) : bool :=
  match OpenAI.choices chunk with
  | _ :: _ => true
  | [] => false
  end.

(** The texts a chunk carries that the loop forwards: its reasoning, then
    its content, each when it is not empty. *)
Definition chunk_texts (chunk : OpenAI.Chunk) : list string :=
  match OpenAI.choices chunk with
  | [] => []
  | c :: _ =>
      ((if Py.truthy (OpenAI.reasoning (OpenAI.delta c))
        then match OpenAI.reasoning (OpenAI.delta c) with
             | Some r => [r] | None => [] end
        else [])
       ++ (if Py.truthy (OpenAI.content (OpenAI.delta c))
           then match OpenAI.content (OpenAI.delta c) with
                | Some t => [t] | None => [] end
           else []))%list
  end.

(** The chunk carries answer content. *)
Definition carries_content (chunk : OpenAI.Chunk) : bool :=
  match OpenAI.choices chunk with
  | [] => false
  | c :: _ => Py.truthy (OpenAI.content (OpenAI.delta c))
  end.

(** The chunk has a choice and carries nothing the loop acts on. *)
Definition silent (chunk : OpenAI.Chunk) : bool :=
  match OpenAI.choices chunk, OpenAI.usage chunk with
  | c :: _, None =>
      negb (Py.truthy (OpenAI.reasoning (OpenAI.delta c)))
      && negb (Py.truthy (OpenAI.content (OpenAI.delta c)))
  | _, _ => false
  end.

(** How many of the records are the [push_chat] record of the text [t]. *)
Definition is_push_chat (t : string) (e : OutboundEvent) : bool :=
  match e with
  | [(k1, JStr c); (k2, JStr m)] =>
      (k1 =? "content") && (c =? t) && (k2 =? "method") && (m =? "push_chat")
  | _ => false
  end.

Definition count_push_chat (t : string) (evs : list OutboundEvent) : nat :=
  length (filter (is_push_chat t) evs).

(** No text of the stream is one of the two tags of the collapse block. *)
Definition tag_free (stream : list OpenAI.Chunk) : Prop :=
  forall chunk t, In chunk stream -> In t (chunk_texts chunk) ->
                  t <> "<collapse>" /\ t <> "</collapse>".

Definition b2n (b : bool) : nat := if b then 1 else 0.

(** Every character of the string is white space. *)
Fixpoint blank (s : string) : bool :=
  match s with
  | "" => true
  | String c s' => Py.isspace c && blank s'
  end.

(** The snapshot with another prompt. *)
Definition with_prompt (api : ExtensionAPI) (p : string) : ExtensionAPI :=
  {| current_file_content := current_file_content api;
     selection := selection api;
     cursor_row := cursor_row api;
     cursor_column := cursor_column api;
     api_key := api_key api;
     api_url := api_url api;
     prompt := p;
     terminal_history := terminal_history api;
     terminal_snapshot := terminal_snapshot api;
     repo_path := repo_path api;
     current_file := current_file api;
     edit_file := edit_file api;
     repo_files := repo_files api;
     opened_files := opened_files api;
     chat_history := chat_history api |}.

(** *** The loop of the bridge, chunk by chunk

    What one chunk with a choice makes the loop print when the flag is
    [th], and the flag afterwards; [stream_loop_records] shows that the
    loop does exactly this. *)
Definition text_of (o : option string) : string :=
  match o with
  | Some t => t
  | None => ""
  end.

Definition flag_after (th : bool) (chunk : OpenAI.Chunk) : bool :=
  match OpenAI.choices chunk with
  | [] => th
  | c :: _ =>
      if Py.truthy (OpenAI.content (OpenAI.delta c)) then false
      else if Py.truthy (OpenAI.reasoning (OpenAI.delta c)) then true
      else th
  end.

Definition chunk_records (model : string) (th : bool) (chunk : OpenAI.Chunk)
  : list OutboundEvent :=
  match OpenAI.choices chunk with
  | [] => []
  | c :: _ =>
      let re := OpenAI.reasoning (OpenAI.delta c) in
      let co := OpenAI.content (OpenAI.delta c) in
      ((if Py.truthy re
        then (if th then [] else [PushChat "<collapse>"]) ++ [PushChat (text_of re)]
        else [])
       ++ (if Py.truthy co
           then (if (if Py.truthy re then true else th)
                 then [PushChat "</collapse>"] else [])
                ++ [PushChat (text_of co)]
           else [])
       ++ match OpenAI.usage chunk with
          | Some u => [usage_metadata (OpenAI.prompt_tokens u) model]
          | None => []
          end)%list
  end.

(** The records of the chunks up to the first one without a choice. *)
Fixpoint stream_records (model : string) (th : bool)
    (stream : list OpenAI.Chunk) : list OutboundEvent :=
  match stream with
  | [] => []
  | chunk :: stream' =>
      if has_choice chunk
      then (chunk_records model th chunk
            ++ stream_records model (flag_after th chunk) stream')%list
      else []
  end.

Fixpoint stream_result (th : bool) (stream : list OpenAI.Chunk) : Result bool :=
  match stream with
  | [] => Ok th
  | chunk :: stream' =>
      if has_choice chunk then stream_result (flag_after th chunk) stream'
      else Raise IndexError
  end.

(** [l] is [l1] and [l2] shuffled together, each in its own order. *)
Inductive merged {A : Type} : list A -> list A -> list A -> Prop :=
| merged_nil : merged [] [] []
| merged_left x l1 l2 l : merged l1 l2 l -> merged (x :: l1) l2 (x :: l)
| merged_right x l1 l2 l : merged l1 l2 l -> merged l1 (x :: l2) (x :: l).

(** A record the bridge adds of its own: a tag of the collapse block or
    the metadata of a usage record. *)
Definition added_by_bridge (model : string) (e : OutboundEvent) : Prop :=
  e = PushChat "<collapse>" \/ e = PushChat "</collapse>"
  \/ exists n, e = usage_metadata n model.

(** The texts of the stream up to the first chunk without a choice. *)
Fixpoint forwarded_texts (stream : list OpenAI.Chunk) : list string :=
  match stream with
  | [] => []
  | chunk :: stream' =>
      if has_choice chunk then (chunk_texts chunk ++ forwarded_texts stream')%list
      else []
  end.

(** The text of the system prompt after the name of the model. *)
Definition system_prompt_rest : string :=
  Eval vm_compute in
    substring 46 (String.length (get_system_prompt "") - 46) (get_system_prompt "").

(** A character that [repr] shows as it is between single quotes:
    printable ASCII other than the single quote and the backslash. *)
Definition plain_char (c : ascii) : bool :=
  let n := nat_of_ascii c in
  ((32 <=? n) && (n <? 127) && negb (n =? 39) && negb (n =? 92))%nat.

Fixpoint plain (s : string) : bool :=
  match s with
  | "" => true
  | String c s' => plain_char c && plain s'
  end.

(** The snapshot with another content of the current file. *)
Definition with_current_file_content (api : ExtensionAPI) (text : string)
  : ExtensionAPI :=
  {| current_file_content := text;
     selection := selection api;
     cursor_row := cursor_row api;
     cursor_column := cursor_column api;
     api_key := api_key api;
     api_url := api_url api;
     prompt := prompt api;
     terminal_history := terminal_history api;
     terminal_snapshot := terminal_snapshot api;
     repo_path := repo_path api;
     current_file := current_file api;
     edit_file := edit_file api;
     repo_files := repo_files api;
     opened_files := opened_files api;
     chat_history := chat_history api |}.

(** [needle in hay] *)
Fixpoint contains_text (needle hay : string) : bool :=
  Py.startswith hay needle
  || match hay with
     | "" => false
     | String _ hay' => contains_text needle hay'
     end.

(** A file content that closes its fence and goes on with the text of a
    Selection section for the snippet [x], up to where the closing fence
    of the file will stand. *)
Definition content_spelling_selection : string :=
  "a" ++ Py.nl ++ "```" ++ Py.nl ++ Py.nl
  ++ _format_section "Selection"
       ("This is the code snippet that I'm referring to" ++ Py.nl ++ Py.nl
        ++ "```" ++ Py.nl ++ "x").

(* ===================================================================== *)
(** ** Printing computations *)
(* ===================================================================== *)

Lemma append_nil_r s : s ++ "" = s.
Proof. induction s as [|c s IH]; cbn; [reflexivity|now rewrite IH]. Qed.

Lemma append_assoc (s1 s2 s3 : string) : (s1 ++ s2) ++ s3 = s1 ++ s2 ++ s3.
Proof. induction s1 as [|c s1 IH]; cbn; [reflexivity|now rewrite IH]. Qed.

Lemma append_same_nil s x : s ++ x = s -> x = "".
Proof.
  induction s as [|c s IH]; cbn; [easy|]. intros [= H]. now apply IH.
Qed.

Lemma emit_nil s : emit [] s = s.
Proof. destruct s; unfold emit; simpl. now rewrite app_nil_r. Qed.

Lemma emit_emit evs1 evs2 s : emit evs2 (emit evs1 s) = emit (evs1 ++ evs2) s.
Proof. unfold emit; simpl. now rewrite app_assoc. Qed.

Lemma Emits_ret {A} (a : A) : Emits (ret a) (Ok a) [].
Proof. intros s. unfold ret. now rewrite emit_nil. Qed.

Lemma Emits_raise {A} (e : Exception) : Emits (@raise A e) (Raise e) [].
Proof. intros s. unfold raise. now rewrite emit_nil. Qed.

Lemma Emits_bind {A B} (c : M A) (k : A -> M B) a evs1 r evs2 :
  Emits c (Ok a) evs1 -> Emits (k a) r evs2 ->
  Emits (bind c k) r (evs1 ++ evs2).
Proof.
  intros Hc Hk s. unfold bind. rewrite Hc, Hk. now rewrite emit_emit.
Qed.

Lemma Emits_bind_raise {A B} (c : M A) (k : A -> M B) e evs :
  Emits c (Raise e) evs -> Emits (bind c k) (Raise e) evs.
Proof. intros Hc s. unfold bind. now rewrite Hc. Qed.

Lemma Emits_push_to_chat text : Emits (push_to_chat text) (Ok tt) [PushChat text].
Proof. intros s. reflexivity. Qed.

Lemma Emits_log text : Emits (log text) (Ok tt) [Log text].
Proof. intros s. reflexivity. Qed.

Lemma Emits_terminate_chat : Emits terminate_chat (Ok tt) [TerminateChat].
Proof. intros s. reflexivity. Qed.

(* ===================================================================== *)
(** ** The streaming bridge *)
(* ===================================================================== *)

Ltac emits_step :=
  first
    [ apply Emits_ret
    | apply Emits_raise
    | apply Emits_push_to_chat
    | apply Emits_log
    | apply Emits_terminate_chat
    | eassumption
    | eapply Emits_bind ].

Ltac emits :=
  repeat (cbn [negb OpenAI.delta OpenAI.reasoning OpenAI.content
               OpenAI.usage OpenAI.choices OpenAI.prompt_tokens];
          try match goal with
              | H : Py.truthy ?x = _ |- context [Py.truthy ?x] => rewrite H
              end;
          emits_step).

(** Whatever the stream, the loop of [call_llm] only prints: its result and
    the records it prints are fixed by the model name, the flag it starts
    with and the stream. *)
Lemma stream_loop_emits model stream :
  forall thinking,
    exists r evs, Emits (stream_loop model thinking stream) r evs.
Proof.
  induction stream as [|chunk stream' IH]; intros thinking.
  - exists (Ok thinking), []. apply Emits_ret.
  - destruct (IH true) as (rt & et & Ht).
    destruct (IH false) as (rf & ef & Hf).
    destruct chunk as [[|[[re co]] cs] us].
    + exists (Raise IndexError), []. simpl.
      apply Emits_bind_raise. unfold first_choice. simpl. apply Emits_raise.
    + cbn [stream_loop first_choice OpenAI.delta OpenAI.reasoning
             OpenAI.content OpenAI.usage OpenAI.choices].
      destruct (Py.truthy re) eqn:Hre, thinking, (Py.truthy co) eqn:Hco,
        us as [u|];
        eexists _, _; emits.
Qed.

(** [call_llm] sends the request, runs the loop and, when the loop does not
    raise, prints the terminate record: nothing is printed between the last
    record of the loop and the terminate record. *)
Lemma call_llm_run api model messages stream r evs :
  Emits (stream_loop model false stream) r evs ->
  forall s,
    call_llm api model messages stream s =
    match r with
    | Ok _ => (Ok tt, emit (evs ++ [TerminateChat])%list
                        (sent (request_of api model messages) s))
    | Raise e => (Raise e, emit evs (sent (request_of api model messages) s))
    end.
Proof.
  intros Hloop s. unfold call_llm, bind at 1, send. fold (request_of api model messages).
  fold (sent (request_of api model messages) s).
  unfold bind. rewrite Hloop. destruct r as [th|e]; [|reflexivity].
  rewrite Emits_terminate_chat. now rewrite emit_emit.
Qed.

(** C2. For the stream [reasoning "Let's "], [reasoning "think"],
    [content "Answer: "], [content "42"], [usage 10], the bridge prints
    exactly: the open tag of the collapse block, the two reasoning texts,
    the close tag, the two answer texts, the metadata record with the
    prompt-token count and the model name, and the terminate record, in
    this order. *)
Theorem scenario_events api model messages s :
  call_llm api model messages scenario_stream s =
  (Ok tt,
   emit [PushChat "<collapse>"; PushChat "Let's "; PushChat "think";
         PushChat "</collapse>"; PushChat "Answer: "; PushChat "42";
         usage_metadata 10 model; TerminateChat]
        (sent (request_of api model messages) s)).
Proof.
  assert (Hloop : Emits (stream_loop model false scenario_stream) (Ok false)
                    [PushChat "<collapse>"; PushChat "Let's "; PushChat "think";
                     PushChat "</collapse>"; PushChat "Answer: "; PushChat "42";
                     usage_metadata 10 model]).
  { intros s0. unfold emit. cbn. unfold bind, ret. cbn.
    rewrite <- !app_assoc. reflexivity. }
  now rewrite (call_llm_run api model messages _ _ _ Hloop).
Qed.

(** C1, evaluated on a stream that ends while the bridge is thinking: the
    loop ends with the flag set, and the terminate record follows the
    reasoning text directly; no close tag of the collapse block is
    printed. *)
Theorem thinking_stream_ends_unclosed api model messages s :
  stream_loop model false [reasoning_chunk "Hmm"] s =
    (Ok true, emit [PushChat "<collapse>"; PushChat "Hmm"] s)
  /\ call_llm api model messages [reasoning_chunk "Hmm"] s =
     (Ok tt, emit [PushChat "<collapse>"; PushChat "Hmm"; TerminateChat]
               (sent (request_of api model messages) s)).
Proof.
  assert (Hloop : Emits (stream_loop model false [reasoning_chunk "Hmm"])
                    (Ok true) [PushChat "<collapse>"; PushChat "Hmm"]).
  { intros s0. unfold emit. cbn. unfold bind, ret. cbn.
    rewrite <- !app_assoc. reflexivity. }
  split; [apply Hloop|].
  now rewrite (call_llm_run api model messages _ _ _ Hloop).
Qed.

(** The bridge from any state: the request is sent, then records are
    printed; which records, and the result, is fixed by the model name and
    the stream. *)
Lemma call_llm_emits model stream :
  exists r evs, forall api messages s,
    call_llm api model messages stream s =
    (r, emit evs (sent (request_of api model messages) s)).
Proof.
  destruct (stream_loop_emits model stream false) as (r & evs & Hloop).
  destruct r as [th|e].
  - exists (Ok tt), (evs ++ [TerminateChat])%list. intros api messages s.
    now rewrite (call_llm_run api model messages _ _ _ Hloop).
  - exists (Raise e), evs. intros api messages s.
    now rewrite (call_llm_run api model messages _ _ _ Hloop).
Qed.

(** C9. The records the bridge prints are a function of the stream (and of
    the model name the usage record quotes): two runs on the same stream
    end alike and print the same records in the same order, whatever the
    snapshot, the messages and the state each run starts from. *)
Theorem bridge_deterministic model stream api1 api2 messages1 messages2 s1 s2 :
  exists r evs,
    fst (call_llm api1 model messages1 stream s1) = r
    /\ fst (call_llm api2 model messages2 stream s2) = r
    /\ stdout (snd (call_llm api1 model messages1 stream s1)) = (stdout s1 ++ evs)%list
    /\ stdout (snd (call_llm api2 model messages2 stream s2)) = (stdout s2 ++ evs)%list.
Proof.
  destruct (call_llm_emits model stream) as (r & evs & H).
  exists r, evs. rewrite !H. repeat split.
Qed.

(** C3, the claim fails for the bridge: on the transition from plain to
    thinking the open tag of the collapse block is printed, and the block
    stack stays empty. *)
Lemma bridge_open_tag_not_pushed :
  let s' := snd (stream_loop the_model false [reasoning_chunk "Hmm"] initial) in
  In (PushChat "<collapse>") (stdout s') /\ _blocks s' = [].
Proof. cbn. split; [now left | reflexivity]. Qed.

Lemma start_block_run type_ s :
  start_block type_ s =
  match dict_get TAGS type_ with
  | Some tag =>
      (Ok tt, {| _blocks := _blocks s ++ [tag];
                 stdout := stdout s ++ [PushChat ("<" ++ tag ++ ">")];
                 requests := requests s |})
  | None => (Raise (KeyError type_), s)
  end.
Proof.
  unfold start_block, getitem, bind.
  destruct (dict_get TAGS type_) as [tag|]; reflexivity.
Qed.

Lemma end_block_pop bs tag out rq :
  end_block {| _blocks := bs ++ [tag]; stdout := out; requests := rq |} =
  (Ok tt, {| _blocks := bs;
             stdout := out ++ [PushChat ("</" ++ tag ++ ">")];
             requests := rq |}).
Proof.
  unfold end_block, bind, get_blocks. cbn [_blocks].
  rewrite length_app, Nat.add_comm. cbn [length Nat.add Nat.ltb Nat.leb assert].
  unfold ret at 1. rewrite last_last, removelast_last. reflexivity.
Qed.

(** C3, as the code has it. [start_block] prints the open tag and pushes
    it; [end_block] pops the top of the stack and prints the close tag of
    exactly that tag, and fails its assertion on an empty stack without
    printing; [push_meta] opens and closes its block around the text and
    leaves the stack as it found it. The bridge prints its tags through
    [push_to_chat]: it never changes the block stack. *)
Theorem block_stack_discipline :
  (forall type_ s,
      start_block type_ s =
      match dict_get TAGS type_ with
      | Some tag =>
          (Ok tt, {| _blocks := _blocks s ++ [tag];
                     stdout := stdout s ++ [PushChat ("<" ++ tag ++ ">")];
                     requests := requests s |})
      | None => (Raise (KeyError type_), s)
      end)
  /\ (forall bs tag out rq,
         end_block {| _blocks := bs ++ [tag]; stdout := out; requests := rq |} =
         (Ok tt, {| _blocks := bs;
                    stdout := out ++ [PushChat ("</" ++ tag ++ ">")];
                    requests := rq |}))
  /\ (forall out rq,
         end_block {| _blocks := []; stdout := out; requests := rq |} =
         (Raise AssertionError, {| _blocks := []; stdout := out; requests := rq |}))
  /\ (forall text s,
         push_meta text s =
         (Ok tt, emit [PushChat "<metadata>"; PushChat text; PushChat "</metadata>"] s))
  /\ (forall api model messages stream s,
         _blocks (snd (call_llm api model messages stream s)) = _blocks s).
Proof.
  split; [|split; [|split; [|split]]].
  - apply start_block_run.
  - apply end_block_pop.
  - intros out rq. reflexivity.
  - intros text [bs out rq]. unfold push_meta.
    unfold bind at 1. rewrite start_block_run. cbn [dict_get TAGS String.eqb Ascii.eqb Bool.eqb].
    cbn [_blocks stdout requests].
    unfold bind at 1. rewrite Emits_push_to_chat. unfold emit at 1.
    cbn [_blocks stdout requests]. rewrite end_block_pop.
    unfold emit. cbn [_blocks stdout requests]. rewrite <- !app_assoc. reflexivity.
  - intros api model messages stream s.
    destruct (call_llm_emits model stream) as (r & evs & H).
    now rewrite H.
Qed.

(* ===================================================================== *)
(** ** The context assembler *)
(* ===================================================================== *)

(** Reading the opened files: the first one that cannot be read raises,
    and nothing is printed either way. *)
Lemma read_opened_files fs files :
  match find (fun f => negb (File_exists fs f)) files with
  | Some f =>
      Emits (mapM (fun f =>
                     text <- get_content fs f ;;
                     ret ("Path: `" ++ path f ++ "`" ++ Py.nl ++ Py.nl
                          ++ _format_code_block text)) files)
            (Raise (OSError (_fs_path f))) []
  | None =>
      Emits (mapM (fun f =>
                     text <- get_content fs f ;;
                     ret ("Path: `" ++ path f ++ "`" ++ Py.nl ++ Py.nl
                          ++ _format_code_block text)) files)
            (Ok (map (opened_file_entry fs) files)) []
  end.
Proof.
  induction files as [|f files IH]; cbn [find mapM map].
  - apply Emits_ret.
  - unfold File_exists, get_content, opened_file_entry at 1.
    destruct (fs (_fs_path f)) as [text|] eqn:Hf; cbn [negb].
    + destruct (find _ files) as [g|].
      * intros s. unfold bind at 1 2, ret at 1 2. unfold bind at 1.
        now rewrite IH.
      * intros s. unfold bind at 1 2, ret at 1 2. unfold bind at 1.
        now rewrite IH.
    + intros s. unfold bind, raise. now rewrite emit_nil.
Qed.

(** The assembler, from every state: when an opened file cannot be read it
    raises before printing anything; otherwise it prints the two metadata
    records and returns the sections. *)
Lemma build_context_sections_run fs api :
  match first_unreadable fs api with
  | Some f =>
      Emits (build_context_sections fs api) (Raise (OSError (_fs_path f))) []
  | None =>
      Emits (build_context_sections fs api) (Ok (sections fs api))
            [opened_files_metadata api; current_file_metadata api]
  end.
Proof.
  unfold first_unreadable, build_context_sections, sections, base_sections,
    other_files_sections, selection_sections.
  pose proof (read_opened_files fs (opened_files api)) as Hread.
  destruct (opened_files api) as [|f files] eqn:Hopen.
  - cbn [find]. destruct (selection_given api);
      change [opened_files_metadata api; current_file_metadata api]
        with ([] ++ [opened_files_metadata api] ++ [current_file_metadata api] ++ [])%list;
      unfold opened_files_metadata, current_file_metadata; rewrite Hopen;
      emits.
  - rewrite <- Hopen in *. clear Hopen.
    destruct (find _ (opened_files api)) as [g|].
    + apply Emits_bind_raise. now apply Emits_bind_raise.
    + change [opened_files_metadata api; current_file_metadata api]
        with (([] ++ []) ++ [opened_files_metadata api]
              ++ [current_file_metadata api] ++ [])%list.
      destruct (selection_given api); emits.
Qed.

Lemma build_context_run fs api :
  match first_unreadable fs api with
  | Some f => Emits (build_context fs api) (Raise (OSError (_fs_path f))) []
  | None =>
      Emits (build_context fs api)
            (Ok (Py.join (Py.nl ++ Py.nl) (sections fs api)))
            [opened_files_metadata api; current_file_metadata api]
  end.
Proof.
  pose proof (build_context_sections_run fs api) as H.
  unfold build_context. destruct (first_unreadable fs api) as [f|].
  - now apply Emits_bind_raise.
  - rewrite <- (app_nil_r [_; _]). eapply Emits_bind; [exact H|apply Emits_ret].
Qed.

Lemma first_unreadable_none fs api :
  first_unreadable fs api = None <->
  forallb (File_exists fs) (opened_files api) = true.
Proof.
  unfold first_unreadable. induction (opened_files api) as [|f l IH]; cbn.
  - tauto.
  - destruct (File_exists fs f); cbn; [exact IH | split; discriminate].
Qed.

Lemma first_unreadable_some fs api f :
  first_unreadable fs api = Some f ->
  In f (opened_files api) /\ fs (_fs_path f) = None.
Proof.
  unfold first_unreadable. intros H. apply find_some in H as [Hin Hf].
  split; [exact Hin|]. unfold File_exists in Hf.
  now destruct (fs (_fs_path f)).
Qed.

(** The titles of the sections differ. *)
Lemma section_title_inj t1 t2 b1 b2 :
  _format_section t1 b1 = _format_section t2 b2 ->
  t1 ++ Py.nl ++ Py.nl ++ b1 = t2 ++ Py.nl ++ Py.nl ++ b2.
Proof. unfold _format_section. cbn. now intros [= H]. Qed.

Lemma base_sections_no_selection fs api :
  ~ has_section "Selection" (base_sections fs api).
Proof.
  unfold has_section, base_sections, other_files_sections, current_file_section.
  intros [body Hin]. apply in_app_or in Hin as [Hin|[Hin|[]]].
  - destruct (opened_files api); [destruct Hin|].
    destruct Hin as [Hin|[]]. apply section_title_inj in Hin. discriminate Hin.
  - apply section_title_inj in Hin. discriminate Hin.
Qed.

Lemma selection_given_iff api :
  selection_given api = true <->
  exists sel, selection api = Some sel /\ Py.strip sel <> "".
Proof.
  unfold selection_given. destruct (selection api) as [sel|].
  - split.
    + intros H. apply andb_true_iff in H as [_ H]. exists sel. split; [reflexivity|].
      intros E. rewrite E in H. discriminate H.
    + intros (sel' & [= <-] & Hne). apply andb_true_iff. split.
      * destruct sel; [now elim Hne|reflexivity].
      * destruct (Py.strip sel =? "") eqn:E; [|reflexivity].
        apply String.eqb_eq in E. now elim Hne.
  - split; [discriminate|]. now intros (sel & [=] & _).
Qed.

(** The sections of the assembler: among them is one titled Selection
    exactly when the selection is present and not empty once stripped,
    and it is the last one. *)
Lemma sections_hold_selection fs api s secs s' :
  build_context_sections fs api s = (Ok secs, s') ->
  build_context fs api s = (Ok (Py.join (Py.nl ++ Py.nl) secs), s')
  /\ (has_section "Selection" secs <->
      exists sel, selection api = Some sel /\ Py.strip sel <> "")
  /\ build_context_sections fs (with_selection api None) s
     = (Ok (base_sections fs api), s')
  /\ secs = (base_sections fs api
             ++ match selection api with
                | Some sel =>
                    if Py.strip sel =? "" then [] else [selection_section sel]
                | None => []
                end)%list.
Proof.
  intros Hrun.
  pose proof (build_context_sections_run fs api) as H.
  pose proof (build_context_sections_run fs (with_selection api None)) as H0.
  unfold first_unreadable in *. cbn [opened_files with_selection] in H0.
  destruct (find _ (opened_files api)) as [f|].
  { rewrite H in Hrun. discriminate Hrun. }
  rewrite H in Hrun. injection Hrun as <- <-.
  split; [|split; [|split]].
  - unfold build_context, bind. now rewrite H.
  - rewrite <- selection_given_iff. unfold sections, selection_sections.
    split.
    + intros [body Hin]. apply in_app_or in Hin as [Hin|Hin].
      * exfalso. apply (base_sections_no_selection fs api). now exists body.
      * destruct (selection_given api); [reflexivity|destruct Hin].
    + intros ->. eexists. apply in_or_app. right. left. reflexivity.
  - rewrite H0. unfold sections, selection_sections. cbn.
    now rewrite app_nil_r.
  - unfold sections, selection_sections, selection_given.
    destruct (selection api) as [sel|]; [|reflexivity].
    destruct sel as [|c sel]; [reflexivity|]. cbn [String.eqb negb andb].
    now destruct (Py.strip (String c sel) =? "").
Qed.

Lemma join_app_last sep l x :
  l <> [] -> Py.join sep (l ++ [x]) = Py.join sep l ++ sep ++ x.
Proof.
  induction l as [|a l IH]; [easy|]. intros _.
  destruct l as [|b l]; [reflexivity|].
  change (Py.join sep ((a :: b :: l) ++ [x]))
    with (a ++ sep ++ Py.join sep ((b :: l) ++ [x])).
  rewrite IH by discriminate.
  change (Py.join sep (a :: b :: l)) with (a ++ sep ++ Py.join sep (b :: l)).
  now rewrite !append_assoc.
Qed.

Lemma selection_given_strip api :
  selection_given api =
  match selection api with
  | Some sel => negb (Py.strip sel =? "")
  | None => false
  end.
Proof.
  unfold selection_given. destruct (selection api) as [[|c sel]|]; reflexivity.
Qed.

(** C5, the claim fails on the returned string. A file content can close
    its fence and spell a Selection section: the snapshot with that
    content and no selection returns the very string (and prints the very
    records) that the snapshot with the content [a] and the selection [x]
    returns, so its context contains the whole text of a Selection
    section without any selection. *)
Lemma selection_section_spelled_by_file :
  let selected :=
    with_selection
      (with_current_file_content (sample_api "explain" [] [] None) "a")
      (Some "x") in
  let unselected :=
    with_current_file_content (sample_api "explain" [] [] None)
      content_spelling_selection in
  selection unselected = None
  /\ (exists sel, selection selected = Some sel /\ Py.strip sel <> "")
  /\ build_context sample_fs unselected initial
     = build_context sample_fs selected initial
  /\ exists ctx,
       fst (build_context sample_fs unselected initial) = Ok ctx
       /\ contains_text (selection_section "x") ctx = true.
Proof.
  cbn zeta. split; [reflexivity|]. split; [|split].
  - exists "x". split; [reflexivity|]. vm_compute. discriminate.
  - vm_compute. reflexivity.
  - eexists. split; [vm_compute; reflexivity|]. vm_compute. reflexivity.
Qed.

(** C5, as the code has it. When the assembler returns, the string it
    returns is the context of the same snapshot without selection, and,
    exactly when the selection is present and not empty once stripped,
    a blank line and the rendered Selection section after it. An absent,
    empty or blank selection changes nothing: the same string is
    returned and the same records are printed as without selection. *)
Theorem selection_section_appended fs api s ctx s' :
  build_context fs api s = (Ok ctx, s') ->
  build_context fs (with_selection api None) s
  = (Ok (context_of fs (with_selection api None)), s')
  /\ ctx =
     match selection api with
     | Some sel =>
         if Py.strip sel =? "" then context_of fs (with_selection api None)
         else context_of fs (with_selection api None)
              ++ (Py.nl ++ Py.nl) ++ selection_section sel
     | None => context_of fs (with_selection api None)
     end
  /\ (ctx <> context_of fs (with_selection api None) <->
      exists sel, selection api = Some sel /\ Py.strip sel <> "").
Proof.
  intros Hrun.
  pose proof (build_context_run fs api) as H.
  pose proof (build_context_run fs (with_selection api None)) as H0.
  unfold first_unreadable in *. cbn [opened_files with_selection] in H0.
  destruct (find _ (opened_files api)) as [f|].
  { rewrite H in Hrun. discriminate Hrun. }
  rewrite H in Hrun.
  assert (Hc : ctx = Py.join (Py.nl ++ Py.nl) (sections fs api)) by congruence.
  assert (Hs : s' = emit [opened_files_metadata api; current_file_metadata api] s)
    by congruence.
  subst ctx s'. clear Hrun.
  fold (context_of fs (with_selection api None)) in H0.
  assert (Hbase : context_of fs (with_selection api None)
                  = Py.join (Py.nl ++ Py.nl) (base_sections fs api)).
  { unfold context_of, sections, selection_sections. cbn [selection_given
      with_selection selection]. rewrite app_nil_r. reflexivity. }
  assert (Hctx : Py.join (Py.nl ++ Py.nl) (sections fs api) =
                 match selection api with
                 | Some sel =>
                     if Py.strip sel =? ""
                     then context_of fs (with_selection api None)
                     else context_of fs (with_selection api None)
                          ++ (Py.nl ++ Py.nl) ++ selection_section sel
                 | None => context_of fs (with_selection api None)
                 end).
  { rewrite Hbase. unfold sections, selection_sections.
    rewrite selection_given_strip.
    destruct (selection api) as [sel|]; [|now rewrite app_nil_r].
    destruct (Py.strip sel =? ""); cbn [negb]; [now rewrite app_nil_r|].
    apply join_app_last. unfold base_sections.
    intros E. symmetry in E. now apply app_cons_not_nil in E. }
  split; [apply H0|]. split; [exact Hctx|].
  rewrite Hctx. split.
  - intros Hne. destruct (selection api) as [sel|]; [|now elim Hne].
    exists sel. split; [reflexivity|].
    intros E. rewrite E in Hne. now elim Hne.
  - intros (sel & -> & Hsel).
    destruct (Py.strip sel =? "") eqn:E.
    { apply String.eqb_eq in E. now elim Hsel. }
    intros Heq. apply append_same_nil in Heq. discriminate Heq.
Qed.

Lemma selection_section_appended_witness :
  context_of sample_fs
    (with_selection (sample_api "explain" ["util.py"] [] None) (Some "f()"))
  = context_of sample_fs
      (with_selection
         (with_selection (sample_api "explain" ["util.py"] [] None) (Some "f()"))
         None)
    ++ (Py.nl ++ Py.nl) ++ selection_section "f()".
Proof.
  refine (proj1 (proj2
    (selection_section_appended sample_fs
       (with_selection (sample_api "explain" ["util.py"] [] None) (Some "f()"))
       initial _
       (emit [opened_files_metadata (sample_api "explain" ["util.py"] [] None);
              current_file_metadata (sample_api "explain" ["util.py"] [] None)]
             initial)
       _))).
  reflexivity.
Defined.


(* ===================================================================== *)
(** ** The entry point *)
(* ===================================================================== *)

(** [extension], from every state. An opened file that cannot be read ends
    it before anything is printed; an absent terminal snapshot ends it
    after the preamble; otherwise the third log record is printed, the
    request is sent and the bridge runs. *)
Lemma extension_run fs api stream :
  match first_unreadable fs api with
  | Some f =>
      forall s, extension fs api stream s = (Raise (OSError (_fs_path f)), s)
  | None =>
      match terminal_snapshot api with
      | None =>
          forall s, extension fs api stream s
                    = (Raise TypeError, emit (preamble fs api) s)
      | Some lines =>
          exists r evs, forall s,
            extension fs api stream s =
            (r, emit evs
                  (sent (request_of api the_model
                           (build_messages the_model api (context_of fs api)))
                     (emit (preamble fs api
                            ++ [Log ("## Terminal " ++ Py.join Py.nl lines)]) s)))
      end
  end.
Proof.
  pose proof (build_context_run fs api) as Hctx.
  unfold extension. destruct (first_unreadable fs api) as [f|].
  - intros s. unfold bind. rewrite Hctx. now rewrite emit_nil.
  - fold (context_of fs api) in Hctx.
    destruct (terminal_snapshot api) as [lines|].
    + destruct (call_llm_emits the_model stream) as (r & evs & Hllm).
      exists r, evs. intros s.
      unfold bind at 1. rewrite Hctx.
      unfold bind at 1. rewrite Emits_log.
      unfold bind at 1. rewrite Emits_log.
      unfold bind at 1. unfold ret at 1.
      unfold bind at 1. rewrite Emits_log.
      rewrite Hllm. rewrite !emit_emit. reflexivity.
    + intros s.
      unfold bind at 1. rewrite Hctx.
      unfold bind at 1. rewrite Emits_log.
      unfold bind at 1. rewrite Emits_log.
      unfold bind, raise. rewrite !emit_emit. reflexivity.
Qed.

Lemma metadata_records_differ api :
  opened_files_metadata api <> current_file_metadata api.
Proof.
  unfold opened_files_metadata, current_file_metadata, PushChat.
  intros H. discriminate H.
Qed.

(** The assembler reads the opened files and nothing else. *)
Lemma build_context_reads_opened_files fs fs' api :
  (forall f, In f (opened_files api) -> fs' (_fs_path f) = fs (_fs_path f)) ->
  forall s, build_context fs' api s = build_context fs api s.
Proof.
  intros Hsame s.
  assert (Hfind : first_unreadable fs' api = first_unreadable fs api).
  { unfold first_unreadable. revert Hsame.
    induction (opened_files api) as [|f l IH]; intros Hsame; [reflexivity|].
    cbn [find]. unfold File_exists at 1 3. rewrite (Hsame f (or_introl eq_refl)).
    destruct (fs (_fs_path f)); cbn [negb]; [|reflexivity].
    apply IH. intros g Hg. apply Hsame. now right. }
  assert (Hsecs : sections fs' api = sections fs api).
  { assert (Hmap : map (opened_file_entry fs') (opened_files api)
                   = map (opened_file_entry fs) (opened_files api)).
    { apply map_ext_in. intros g Hg. unfold opened_file_entry.
      now rewrite (Hsame g Hg). }
    unfold sections, base_sections, other_files_sections.
    now rewrite Hmap. }
  pose proof (build_context_run fs api) as H.
  pose proof (build_context_run fs' api) as H'.
  rewrite Hfind, Hsecs in H'.
  destruct (first_unreadable fs api); now rewrite H, H'.
Qed.

(** C6, the claim fails on a snapshot whose current file exists and one of
    whose opened files cannot be read: the assembler raises before it
    prints, so neither metadata record reaches the host. *)
Lemma metadata_lost_on_unreadable_file :
  let api := sample_api "explain" ["gone.py"] [] (Some []) in
  File_exists sample_fs (current_file api) = true
  /\ build_context sample_fs api initial = (Raise (OSError "/repo/gone.py"), initial)
  /\ stdout (snd (extension sample_fs api scenario_stream initial)) = [].
Proof. cbn. repeat split. Qed.

(** C6, as the code has it. When every opened file can be read, the
    assembler prints exactly two records: first the one that lists the
    paths of the opened files, then the one that names the current file.
    The two differ, they depend on the opened files and the current file
    only (so neither the selection nor the prompt changes them), they open
    the output of the entry point in both routing branches, and with no
    opened file the first one shows the empty list. *)
Theorem metadata_records fs api stream s :
  forallb (File_exists fs) (opened_files api) = true ->
  (exists ctx,
      build_context fs api s =
      (Ok ctx, emit [opened_files_metadata api; current_file_metadata api] s))
  /\ opened_files_metadata api <> current_file_metadata api
  /\ (forall api',
         opened_files api' = opened_files api ->
         current_file api' = current_file api ->
         stdout (snd (build_context fs api' s)) =
         (stdout s ++ [opened_files_metadata api; current_file_metadata api])%list)
  /\ (exists rest,
         stdout (snd (extension fs api stream s)) =
         (stdout s ++ [opened_files_metadata api; current_file_metadata api]
          ++ rest)%list)
  /\ (opened_files api = [] ->
      opened_files_metadata api =
      PushChat (Py.nl ++ "<metadata> Opened Files: [] </metadata>" ++ Py.nl)).
Proof.
  intros Hread. split; [|split; [|split; [|split]]].
  - pose proof (build_context_run fs api) as H.
    apply first_unreadable_none in Hread. rewrite Hread in H.
    eexists. apply H.
  - apply metadata_records_differ.
  - intros api' Hopen Hcur.
    pose proof (build_context_run fs api') as H.
    assert (Hnone : first_unreadable fs api' = None).
    { apply first_unreadable_none. now rewrite Hopen. }
    rewrite Hnone in H. rewrite H.
    unfold opened_files_metadata, current_file_metadata.
    now rewrite Hopen, Hcur.
  - pose proof (extension_run fs api stream) as H.
    apply first_unreadable_none in Hread. rewrite Hread in H.
    destruct (terminal_snapshot api) as [lines|].
    + destruct H as (r & evs & H). rewrite H. cbn [snd emit sent stdout preamble].
      eexists. rewrite <- !app_assoc. cbn [app]. reflexivity.
    + rewrite H. cbn [snd emit stdout preamble]. eexists. reflexivity.
  - intros Hopen. unfold opened_files_metadata. now rewrite Hopen.
Qed.

Lemma metadata_records_witness :
  exists ctx,
    build_context sample_fs (sample_api "explain" ["util.py"] [] None) initial =
    (Ok ctx,
     emit [opened_files_metadata (sample_api "explain" ["util.py"] [] None);
           current_file_metadata (sample_api "explain" ["util.py"] [] None)]
          initial).
Proof.
  refine (proj1 (metadata_records sample_fs
                   (sample_api "explain" ["util.py"] [] None) [] initial _)).
  reflexivity.
Defined.

(** C8, the claim fails in both halves. A secondary opened file that
    cannot be read ends the assembler and the whole invocation with the
    error of the read, before anything is printed; and a current file that
    does not exist ends nothing, because the assembler never reads it. *)
Lemma unreadable_opened_file_is_fatal :
  (let api := sample_api "explain" ["util.py"; "gone.py"] [] (Some []) in
   File_exists sample_fs (current_file api) = true
   /\ build_context sample_fs api initial
      = (Raise (OSError "/repo/gone.py"), initial)
   /\ extension sample_fs api scenario_stream initial
      = (Raise (OSError "/repo/gone.py"), initial))
  /\ (let api := sample_api "explain" [] [] (Some []) in
      File_exists (fun _ => None) (current_file api) = false
      /\ fst (extension (fun _ => None) api scenario_stream initial) = Ok tt).
Proof. cbn. repeat split. Qed.

(** C8, as the code has it. The first opened file that cannot be read
    makes the assembler raise the error of the read; the error leaves the
    entry point as it is, nothing has been printed and no request has been
    sent. When every opened file can be read the assembler returns the
    context. The files other than the opened ones, the current file among
    them, are not read: changing them changes nothing. *)
Theorem unreadable_file_propagates fs api stream s :
  match first_unreadable fs api with
  | Some f =>
      In f (opened_files api) /\ fs (_fs_path f) = None
      /\ build_context fs api s = (Raise (OSError (_fs_path f)), s)
      /\ extension fs api stream s = (Raise (OSError (_fs_path f)), s)
  | None =>
      build_context fs api s =
      (Ok (context_of fs api),
       emit [opened_files_metadata api; current_file_metadata api] s)
  end
  /\ forall fs',
       (forall f, In f (opened_files api) -> fs' (_fs_path f) = fs (_fs_path f)) ->
       build_context fs' api s = build_context fs api s
       /\ extension fs' api stream s = extension fs api stream s.
Proof.
  split.
  - pose proof (build_context_run fs api) as Hctx.
    pose proof (extension_run fs api stream) as Hext.
    pose proof (first_unreadable_some fs api) as Hsome.
    destruct (first_unreadable fs api) as [f|].
    + destruct (Hsome f eq_refl) as [Hin Hnone].
      repeat split; try assumption.
      * rewrite Hctx. now rewrite emit_nil.
      * apply Hext.
    + apply Hctx.
  - intros fs' Hsame.
    pose proof (build_context_reads_opened_files fs fs' api Hsame) as H.
    split; [apply H|]. unfold extension, bind. now rewrite H.
Qed.

Lemma unreadable_file_propagates_witness :
  build_context (fun _ => None) (sample_api "explain" [] [] None) initial
  = build_context sample_fs (sample_api "explain" [] [] None) initial.
Proof.
  refine (proj1 (proj2 (unreadable_file_propagates sample_fs
                          (sample_api "explain" [] [] None) [] initial)
                   (fun _ => None) _)).
  intros f [].
Defined.

(* ===================================================================== *)
(** ** Construction of the snapshot *)
(* ===================================================================== *)

Ltac read_key kwargs k :=
  let v := fresh "v" in
  let E := fresh "E" in
  destruct (kwargs k) as [v|] eqn:E.

(** What [load] stores for the terminal snapshot. *)
Lemma load_terminal_snapshot (kwargs : Kwargs) s0 api s :
  load kwargs s0 = (Ok api, s) ->
  terminal_snapshot api = kw_get (kwargs k_terminal_snapshot)
  /\ opened_files api =
     match kwargs k_opened_files, kwargs k_repo_path with
     | Some l, Some root => map (fun p => File__init__ p root) l
     | _, _ => []
     end.
Proof.
  unfold load, kw, bind, ret, raise, set_blocks.
  read_key kwargs k_current_file_content; [|discriminate].
  read_key kwargs k_selection; [|discriminate].
  read_key kwargs k_cursor_row; [|discriminate].
  read_key kwargs k_cursor_column; [|discriminate].
  read_key kwargs k_api_key; [|discriminate].
  read_key kwargs k_api_url; [|discriminate].
  read_key kwargs k_prompt; [|discriminate].
  read_key kwargs k_repo_path; [|discriminate].
  read_key kwargs k_current_file; [|discriminate].
  read_key kwargs k_repo; [|discriminate].
  read_key kwargs k_opened_files; [|discriminate].
  read_key kwargs k_chat_history; [|discriminate].
  destruct (mapM Message__init__ _ s0) as [[h|e] s1]; [|discriminate].
  intros [= <- <-]. split; reflexivity.
Qed.

(** C7. When a required key is missing from the payload, [load] raises the
    key error that names the first missing key in the order it reads
    them, which is the missing key when only one is missing; the state is
    as before, so nothing has been printed and no request has been sent. *)
Theorem load_missing_field (kwargs : Kwargs) k s :
  In k required -> kwargs k = None ->
  exists k',
    first_missing kwargs = Some k'
    /\ In k' required /\ kwargs k' = None
    /\ load kwargs s = (Raise (KeyError (key_name k')), s)
    /\ ((forall j, In j required -> kwargs j = None -> j = k) -> k' = k).
Proof.
  intros Hin Hk.
  assert (Hex : exists k', first_missing kwargs = Some k').
  { unfold first_missing. destruct (find (missing kwargs) required) as [k'|] eqn:F.
    - now exists k'.
    - exfalso. pose proof (find_none _ _ F k Hin) as Hn.
      unfold missing in Hn. rewrite Hk in Hn. discriminate Hn. }
  destruct Hex as [k' Hfirst]. exists k'.
  pose proof Hfirst as Hsome. unfold first_missing in Hsome.
  apply find_some in Hsome as [Hin' Hmiss].
  assert (Hnone : kwargs k' = None).
  { unfold missing in Hmiss. now destruct (kwargs k'). }
  split; [exact Hfirst|]. split; [exact Hin'|]. split; [exact Hnone|].
  split; [|intros Honly; now apply Honly].
  clear Hin Hk Hin' Hmiss Hnone. revert Hfirst.
  unfold first_missing, required, missing, load, kw, bind, raise, ret.
  cbn [find].
  read_key kwargs k_current_file_content; [|now intros [= <-]].
  read_key kwargs k_selection; [|now intros [= <-]].
  read_key kwargs k_cursor_row; [|now intros [= <-]].
  read_key kwargs k_cursor_column; [|now intros [= <-]].
  read_key kwargs k_api_key; [|now intros [= <-]].
  read_key kwargs k_api_url; [|now intros [= <-]].
  read_key kwargs k_prompt; [|now intros [= <-]].
  read_key kwargs k_repo_path; [|now intros [= <-]].
  read_key kwargs k_current_file; [|now intros [= <-]].
  read_key kwargs k_repo; [|now intros [= <-]].
  read_key kwargs k_opened_files; [|now intros [= <-]].
  read_key kwargs k_chat_history; [|now intros [= <-]].
  discriminate.
Qed.

Lemma load_missing_field_witness :
  load (sample_kwargs None ["util.py"] [] None) initial
  = (Raise (KeyError "prompt"), initial).
Proof.
  destruct (load_missing_field (sample_kwargs None ["util.py"] [] None)
              k_prompt initial)
    as (k' & _ & _ & _ & Hload & Honly).
  - cbn. tauto.
  - reflexivity.
  - rewrite Hload. rewrite Honly; [reflexivity|].
    intros j Hj Hnone.
    destruct j; try reflexivity; try discriminate Hnone;
      cbn in Hj; intuition discriminate.
Defined.

(* ===================================================================== *)
(** ** The terminal snapshot *)
(* ===================================================================== *)

(** C10, the claim fails on a payload without terminal snapshot one of
    whose opened files cannot be read: the entry point raises the error of
    the read, not a type error, and has printed nothing by then. *)
Lemma absent_snapshot_unread_file :
  let kwargs := sample_kwargs (Some "explain") ["gone.py"] [] None in
  let api := sample_api "explain" ["gone.py"] [] None in
  kwargs k_terminal_snapshot = None
  /\ load kwargs initial = (Ok api, initial)
  /\ extension sample_fs api scenario_stream initial
     = (Raise (OSError "/repo/gone.py"), initial).
Proof. cbn. repeat split. Qed.

(** C10, as the code has it. For a payload without terminal snapshot (the
    key is missing or its value is [None]) whose opened files can all be
    read, the entry point raises a type error at the join of the terminal
    snapshot: by then it has printed the two metadata records of the
    assembler and the first two log records, in this order, and it has
    sent no request to the model. *)
Theorem absent_terminal_snapshot (kwargs : Kwargs) fs stream s0 api s :
  kw_get (kwargs k_terminal_snapshot) = None ->
  load kwargs s0 = (Ok api, s) ->
  forallb (File_exists fs) (opened_files api) = true ->
  terminal_snapshot api = None
  /\ extension fs api stream s = (Raise TypeError, emit (preamble fs api) s)
  /\ requests (snd (extension fs api stream s)) = requests s.
Proof.
  intros Habsent Hload Hread.
  apply load_terminal_snapshot in Hload as [Hsnap _].
  rewrite Habsent in Hsnap.
  pose proof (extension_run fs api stream) as H.
  apply first_unreadable_none in Hread. rewrite Hread, Hsnap in H.
  split; [exact Hsnap|]. split; [apply H|]. now rewrite H.
Qed.

Lemma absent_terminal_snapshot_witness :
  extension sample_fs (sample_api "explain" ["util.py"] [] None)
    scenario_stream initial
  = (Raise TypeError,
     emit (preamble sample_fs (sample_api "explain" ["util.py"] [] None)) initial).
Proof.
  refine (proj1 (proj2
    (absent_terminal_snapshot
       (sample_kwargs (Some "explain") ["util.py"] [] None)
       sample_fs scenario_stream initial
       (sample_api "explain" ["util.py"] [] None) initial _ _ _)));
    reflexivity.
Defined.

(* ===================================================================== *)
(** ** The message list *)
(* ===================================================================== *)

Lemma rstrip_head c s :
  Py.isspace c = false -> exists t, Py.rstrip (String c s) = String c t.
Proof.
  intros Hc. cbn [Py.rstrip]. destruct (Py.rstrip s).
  - rewrite Hc. now exists "".
  - eexists. reflexivity.
Qed.

Lemma strip_head c s :
  Py.isspace c = false -> exists t, Py.strip (String c s) = String c t.
Proof.
  intros Hc. unfold Py.strip. cbn [Py.lstrip]. rewrite Hc.
  now apply rstrip_head.
Qed.

Lemma join_head sep c x xs :
  exists t, Py.join sep (String c x :: xs) = String c t.
Proof. destruct xs; cbn; eexists; reflexivity. Qed.

(** The context starts with the mark of a section title. *)
Lemma context_head fs api : exists t, context_of fs api = String "#" t.
Proof.
  unfold context_of, sections, base_sections, other_files_sections.
  destruct (opened_files api); cbn [app]; apply join_head.
Qed.

Lemma system_prompt_head : exists t, get_system_prompt the_model = String "Y" t.
Proof. eexists. vm_compute. reflexivity. Qed.

(** In the escape branch neither the system message nor the message of
    the prompt has the context as its content. *)
Lemma escape_messages_differ fs api :
  Py.startswith (Py.strip (prompt api)) "/" = true ->
  get_system_prompt the_model <> context_of fs api
  /\ prompt api <> context_of fs api.
Proof.
  intros Hesc. destruct (context_head fs api) as [t Ht]. split.
  - destruct system_prompt_head as [u Hu]. rewrite Hu, Ht. discriminate.
  - intros Heq. rewrite Heq, Ht in Hesc.
    destruct (strip_head "#" t eq_refl) as [v Hv]. rewrite Hv in Hesc.
    discriminate Hesc.
Qed.

Lemma content_of_system_message model :
  dict_get (system_message model) "content" = Some (get_system_prompt model).
Proof. reflexivity. Qed.

Lemma content_of_user_message text :
  dict_get (user_message text) "content" = Some text.
Proof. reflexivity. Qed.

(** C4, the claim fails in the escape branch when the history already
    holds a message with the context, as after a turn of the other
    branch: the list sent to the model then contains the assembled
    context. *)
Lemma escape_branch_carries_context :
  let api := sample_api "/explain this" []
               [{| role := "user"; content := sample_context |}] (Some []) in
  Py.startswith (Py.strip (prompt api)) "/" = true
  /\ fst (build_context sample_fs api initial) = Ok sample_context
  /\ exists req,
       requests (snd (extension sample_fs api [] initial)) = [req]
       /\ carries (req_messages req) sample_context.
Proof.
  cbn zeta. split; [reflexivity|]. split; [reflexivity|].
  eexists. split; [reflexivity|].
  exists (user_message sample_context). split; [|reflexivity].
  cbn. right. left. reflexivity.
Qed.

(** C4, as the code has it. When the assembler returns the context and the
    terminal snapshot is present, the entry point sends one request, and
    its message list is: in the escape branch (the stripped prompt starts
    with a slash) the system message, the prior history in order, the
    user message with the raw prompt; otherwise the system message, the
    user message with the context, the prior history in order, the user
    message with the raw prompt. In the escape branch no message is added
    for the context: a message of the list that has the context as its
    content is a message of the prior history. *)
Theorem message_routing fs api stream s ctx s1 lines :
  build_context fs api s = (Ok ctx, s1) ->
  terminal_snapshot api = Some lines ->
  let messages :=
    if Py.startswith (Py.strip (prompt api)) "/" then
      (system_message the_model
       :: map to_dict (chat_history api) ++ [user_message (prompt api)])%list
    else
      (system_message the_model :: user_message ctx
       :: map to_dict (chat_history api) ++ [user_message (prompt api)])%list in
  requests (snd (extension fs api stream s))
  = (requests s ++ [request_of api the_model messages])%list
  /\ (Py.startswith (Py.strip (prompt api)) "/" = true ->
      forall m, In m messages -> dict_get m "content" = Some ctx ->
                In m (map to_dict (chat_history api))).
Proof.
  intros Hctx Hsnap messages.
  pose proof (build_context_run fs api) as Hrun.
  pose proof (extension_run fs api stream) as Hext.
  destruct (first_unreadable fs api) as [f|].
  { rewrite Hrun in Hctx. discriminate Hctx. }
  rewrite Hrun in Hctx. injection Hctx as <- <-.
  rewrite Hsnap in Hext. destruct Hext as (r & evs & Hext).
  fold (context_of fs api) in messages.
  assert (Hmsgs : build_messages the_model api (context_of fs api) = messages).
  { unfold build_messages, messages, system_message, user_message.
    now destruct (Py.startswith (Py.strip (prompt api)) "/"). }
  split.
  - rewrite Hext, Hmsgs. reflexivity.
  - intros Hesc m Hin Hm.
    destruct (escape_messages_differ fs api Hesc) as [Hsys Hprompt].
    unfold messages in Hin. rewrite Hesc in Hin.
    destruct Hin as [<-|Hin].
    + rewrite content_of_system_message in Hm. injection Hm as Hm.
      now elim Hsys.
    + apply in_app_or in Hin as [Hin|[<-|[]]]; [exact Hin|].
      rewrite content_of_user_message in Hm. injection Hm as Hm.
      now elim Hprompt.
Qed.

Lemma message_routing_witness :
  requests (snd (extension sample_fs
                   (sample_api "/explain this" ["util.py"] [] (Some []))
                   scenario_stream initial))
  = [request_of (sample_api "/explain this" ["util.py"] [] (Some []))
       the_model
       [system_message the_model; user_message "/explain this"]].
Proof.
  refine (proj1
    (message_routing sample_fs
       (sample_api "/explain this" ["util.py"] [] (Some []))
       scenario_stream initial
       (context_of sample_fs (sample_api "/explain this" ["util.py"] [] (Some [])))
       (emit [opened_files_metadata (sample_api "/explain this" ["util.py"] [] (Some []));
              current_file_metadata (sample_api "/explain this" ["util.py"] [] (Some []))]
             initial)
       [] _ _));
    reflexivity.
Defined.

(* ===================================================================== *)
(** ** Further properties: messages and [load] *)
(* ===================================================================== *)

Lemma has_key_get {V} (d : Dict V) k :
  has_key d k = true -> exists v, dict_get d k = Some v.
Proof. unfold has_key. destruct (dict_get d k) as [v|]; [now exists v|discriminate]. Qed.

(** Building a message from a dict, from every state. *)
Lemma Message__init__run d :
  if well_formed_message d
  then Emits (Message__init__ d) (Ok (message_of d)) []
  else Emits (Message__init__ d) (Raise (message_error d)) [].
Proof.
  unfold well_formed_message, message_error, message_of, Message__init__,
    getitem.
  destruct (has_key d "self"); cbn [negb andb]; [apply Emits_raise|].
  unfold has_key.
  destruct (dict_get d "role") as [r|]; cbn [andb].
  - destruct (dict_get d "content") as [c|].
    + intros s. unfold bind, ret. now rewrite emit_nil.
    + intros s. unfold bind, ret, raise. now rewrite emit_nil.
  - intros s. unfold bind, raise. now rewrite emit_nil.
Qed.

(** The history of the payload, from every state: the first dict that
    [Message] does not accept raises, otherwise the messages come in
    order. *)
Lemma history_run l :
  match find (fun d => negb (well_formed_message d)) l with
  | Some d => Emits (mapM Message__init__ l) (Raise (message_error d)) []
  | None => Emits (mapM Message__init__ l) (Ok (map message_of l)) []
  end.
Proof.
  induction l as [|d l IH]; cbn [find mapM map].
  - apply Emits_ret.
  - pose proof (Message__init__run d) as Hd.
    destruct (well_formed_message d); cbn [negb].
    + destruct (find _ l) as [d'|].
      * intros s. unfold bind at 1. rewrite Hd, ?emit_nil.
        unfold bind. rewrite IH. now rewrite ?emit_nil.
      * intros s. unfold bind at 1. rewrite Hd, ?emit_nil.
        unfold bind at 1. rewrite IH, ?emit_nil. reflexivity.
    + now apply Emits_bind_raise.
Qed.

(** X1. A message survives the trip through its dict: building a message
    from [to_dict m] gives [m] back and prints nothing. The other way
    round, the dict of a built message has the role and the content of the
    dict it was built from, whatever else that dict held; the state is
    unchanged. *)
Theorem message_round_trip :
  (forall m s, Message__init__ (to_dict m) s = (Ok m, s))
  /\ (forall d m s s',
         Message__init__ d s = (Ok m, s') ->
         s' = s
         /\ dict_get (to_dict m) "role" = dict_get d "role"
         /\ dict_get (to_dict m) "content" = dict_get d "content").
Proof.
  split.
  - intros [r c] s. reflexivity.
  - intros d m s s'. unfold Message__init__, getitem, bind, ret, raise.
    destruct (has_key d "self"); [discriminate|].
    destruct (dict_get d "role") as [r|]; [|discriminate].
    destruct (dict_get d "content") as [c|]; [|discriminate].
    intros [= <- <-]. repeat split.
Qed.

Lemma message_round_trip_witness :
  dict_get (to_dict {| role := "user"; content := "hi" |}) "content"
  = dict_get [("content", "hi"); ("name", "x"); ("role", "user")] "content".
Proof.
  refine (proj2 (proj2
    (proj2 message_round_trip
       [("content", "hi"); ("name", "x"); ("role", "user")]
       {| role := "user"; content := "hi" |} initial initial _))).
  reflexivity.
Defined.

(** [load] on a payload that has every required key: what is left to do
    is to build the history and to store the values. *)
Lemma load_complete (kwargs : Kwargs) v1 v2 v3 v4 v5 v6 v7 v8 v9 v10 v11 v12 :
  kwargs k_current_file_content = Some v1 ->
  kwargs k_selection = Some v2 ->
  kwargs k_cursor_row = Some v3 ->
  kwargs k_cursor_column = Some v4 ->
  kwargs k_api_key = Some v5 ->
  kwargs k_api_url = Some v6 ->
  kwargs k_prompt = Some v7 ->
  kwargs k_repo_path = Some v8 ->
  kwargs k_current_file = Some v9 ->
  kwargs k_repo = Some v10 ->
  kwargs k_opened_files = Some v11 ->
  kwargs k_chat_history = Some v12 ->
  forall s,
    load kwargs s =
    match find (fun d => negb (well_formed_message d)) v12 with
    | Some d => (Raise (message_error d), s)
    | None =>
        (Ok {| current_file_content := v1;
               selection := v2;
               cursor_row := v3;
               cursor_column := v4;
               api_key := v5;
               api_url := v6;
               prompt := v7;
               terminal_history := kw_get (kwargs k_terminal_history);
               terminal_snapshot := kw_get (kwargs k_terminal_snapshot);
               repo_path := v8;
               current_file := File__init__ v9 v8;
               edit_file :=
                 match kwargs k_edit_file with
                 | Some p => Some (File__init__ p v8)
                 | None => None
                 end;
               repo_files := map (fun p => File__init__ p v8) v10;
               opened_files := map (fun p => File__init__ p v8) v11;
               chat_history := map message_of v12 |},
         reset_blocks s)
    end.
Proof.
  intros E1 E2 E3 E4 E5 E6 E7 E8 E9 E10 E11 E12 s.
  pose proof (history_run v12) as Hh.
  unfold load, kw, bind, ret, raise, set_blocks.
  rewrite E1, E2, E3, E4, E5, E6, E7, E8, E9, E10, E11, E12.
  destruct (find _ v12) as [d|]; rewrite Hh, emit_nil; reflexivity.
Qed.

Lemma not_missing (kwargs : Kwargs) k :
  missing kwargs k = false -> exists v, kwargs k = Some v.
Proof. unfold missing. destruct (kwargs k) as [v|]; [now exists v|discriminate]. Qed.

Lemma first_missing_none (kwargs : Kwargs) :
  first_missing kwargs = None ->
  forall k, In k required -> exists v, kwargs k = Some v.
Proof.
  intros H k Hin. apply not_missing.
  pose proof (find_none _ _ H k Hin) as Hk. exact Hk.
Qed.

Lemma load_first_missing (kwargs : Kwargs) k s :
  first_missing kwargs = Some k ->
  load kwargs s = (Raise (KeyError (key_name k)), s).
Proof.
  unfold first_missing, required, missing, load, kw, bind, raise, ret.
  cbn [find].
  read_key kwargs k_current_file_content; [|now intros [= <-]].
  read_key kwargs k_selection; [|now intros [= <-]].
  read_key kwargs k_cursor_row; [|now intros [= <-]].
  read_key kwargs k_cursor_column; [|now intros [= <-]].
  read_key kwargs k_api_key; [|now intros [= <-]].
  read_key kwargs k_api_url; [|now intros [= <-]].
  read_key kwargs k_prompt; [|now intros [= <-]].
  read_key kwargs k_repo_path; [|now intros [= <-]].
  read_key kwargs k_current_file; [|now intros [= <-]].
  read_key kwargs k_repo; [|now intros [= <-]].
  read_key kwargs k_opened_files; [|now intros [= <-]].
  read_key kwargs k_chat_history; [|now intros [= <-]].
  discriminate.
Qed.

(** X2. The outcome of [load], in full. A missing required key raises the
    key error of the first one in reading order. With every required key
    present, the first history dict that [Message] does not accept raises
    its error: a type error when the dict has a key [self], else the key
    error of [role] or [content], whichever is missing ([role] when both
    are). In these cases the state is untouched: the block stack is not
    reset. Otherwise [load] succeeds, and all it changes is the block
    stack, which it empties. The optional keys never make it fail. *)
Theorem load_outcome (kwargs : Kwargs) s :
  match first_missing kwargs with
  | Some k => load kwargs s = (Raise (KeyError (key_name k)), s)
  | None =>
      exists l, kwargs k_chat_history = Some l
      /\ match find (fun d => negb (well_formed_message d)) l with
         | Some d => load kwargs s = (Raise (message_error d), s)
         | None => exists api, load kwargs s = (Ok api, reset_blocks s)
         end
  end.
Proof.
  destruct (first_missing kwargs) as [k|] eqn:Hfirst.
  - now apply load_first_missing.
  - pose proof (first_missing_none kwargs Hfirst) as Hall.
    destruct (Hall k_current_file_content) as [v1 E1]; [cbn; tauto|].
    destruct (Hall k_selection) as [v2 E2]; [cbn; tauto|].
    destruct (Hall k_cursor_row) as [v3 E3]; [cbn; tauto|].
    destruct (Hall k_cursor_column) as [v4 E4]; [cbn; tauto|].
    destruct (Hall k_api_key) as [v5 E5]; [cbn; tauto|].
    destruct (Hall k_api_url) as [v6 E6]; [cbn; tauto|].
    destruct (Hall k_prompt) as [v7 E7]; [cbn; tauto|].
    destruct (Hall k_repo_path) as [v8 E8]; [cbn; tauto|].
    destruct (Hall k_current_file) as [v9 E9]; [cbn; tauto|].
    destruct (Hall k_repo) as [v10 E10]; [cbn; tauto|].
    destruct (Hall k_opened_files) as [v11 E11]; [cbn; tauto|].
    destruct (Hall k_chat_history) as [v12 E12]; [cbn; tauto|].
    exists v12. split; [exact E12|].
    rewrite (load_complete kwargs _ _ _ _ _ _ _ _ _ _ _ _
               E1 E2 E3 E4 E5 E6 E7 E8 E9 E10 E11 E12 s).
    destruct (find _ v12) as [d|]; [reflexivity|]. eexists. reflexivity.
Qed.

(** X3. What a successful [load] stores. Every attribute is the value of
    its key; an absent optional key is stored as [None]; the files are
    built from the paths in payload order, each with the path
    [repo_path/path] on disk; the history is the payload's, dict by dict
    and in order, and every dict of it has both keys. *)
Theorem load_stores_payload (kwargs : Kwargs) s api s' :
  load kwargs s = (Ok api, s') ->
  s' = reset_blocks s
  /\ kwargs k_current_file_content = Some (current_file_content api)
  /\ kwargs k_selection = Some (selection api)
  /\ kwargs k_cursor_row = Some (cursor_row api)
  /\ kwargs k_cursor_column = Some (cursor_column api)
  /\ kwargs k_api_key = Some (api_key api)
  /\ kwargs k_api_url = Some (api_url api)
  /\ kwargs k_prompt = Some (prompt api)
  /\ kwargs k_repo_path = Some (repo_path api)
  /\ kwargs k_current_file = Some (path (current_file api))
  /\ kwargs k_repo = Some (map path (repo_files api))
  /\ kwargs k_opened_files = Some (map path (opened_files api))
  /\ terminal_history api = kw_get (kwargs k_terminal_history)
  /\ terminal_snapshot api = kw_get (kwargs k_terminal_snapshot)
  /\ option_map path (edit_file api) = kwargs k_edit_file
  /\ (forall f,
         In f (current_file api :: repo_files api ++ opened_files api) \/
         edit_file api = Some f ->
         _fs_path f = repo_path api ++ "/" ++ path f)
  /\ (exists l, kwargs k_chat_history = Some l
                /\ chat_history api = map message_of l
                /\ forallb well_formed_message l = true).
Proof.
  intros Hload.
  destruct (first_missing kwargs) as [k|] eqn:Hfirst.
  { rewrite (load_first_missing kwargs k s Hfirst) in Hload. discriminate. }
  pose proof (first_missing_none kwargs Hfirst) as Hall.
  destruct (Hall k_current_file_content) as [v1 E1]; [cbn; tauto|].
  destruct (Hall k_selection) as [v2 E2]; [cbn; tauto|].
  destruct (Hall k_cursor_row) as [v3 E3]; [cbn; tauto|].
  destruct (Hall k_cursor_column) as [v4 E4]; [cbn; tauto|].
  destruct (Hall k_api_key) as [v5 E5]; [cbn; tauto|].
  destruct (Hall k_api_url) as [v6 E6]; [cbn; tauto|].
  destruct (Hall k_prompt) as [v7 E7]; [cbn; tauto|].
  destruct (Hall k_repo_path) as [v8 E8]; [cbn; tauto|].
  destruct (Hall k_current_file) as [v9 E9]; [cbn; tauto|].
  destruct (Hall k_repo) as [v10 E10]; [cbn; tauto|].
  destruct (Hall k_opened_files) as [v11 E11]; [cbn; tauto|].
  destruct (Hall k_chat_history) as [v12 E12]; [cbn; tauto|].
  rewrite (load_complete kwargs _ _ _ _ _ _ _ _ _ _ _ _
             E1 E2 E3 E4 E5 E6 E7 E8 E9 E10 E11 E12 s) in Hload.
  destruct (find _ v12) as [d|] eqn:Hfind; [discriminate|].
  injection Hload as <- <-.
  cbn [current_file_content selection cursor_row cursor_column api_key api_url
       prompt repo_path current_file repo_files opened_files terminal_history
       terminal_snapshot edit_file chat_history File__init__ path].
  rewrite !map_map. cbn [path File__init__]. rewrite !map_id.
  repeat (split; [first [reflexivity | assumption]|]).
  split; [|split].
  - now destruct (kwargs k_edit_file).
  - intros f [[<-|Hin]|Hedit].
    + reflexivity.
    + apply in_app_or in Hin as [Hin|Hin];
        apply in_map_iff in Hin as (p & <- & _); reflexivity.
    + destruct (kwargs k_edit_file); [|discriminate].
      injection Hedit as <-. reflexivity.
  - exists v12. split; [exact E12|]. split; [reflexivity|].
    apply forallb_forall. intros d Hd.
    pose proof (find_none _ _ Hfind d Hd) as Hn. cbn beta in Hn.
    destruct (well_formed_message d); [reflexivity|discriminate Hn].
Qed.

Lemma load_stores_payload_witness :
  sample_kwargs (Some "explain") ["util.py"] [] None k_opened_files
  = Some (map path (opened_files (sample_api "explain" ["util.py"] [] None))).
Proof.
  pose proof (load_stores_payload
                (sample_kwargs (Some "explain") ["util.py"] [] None) initial
                (sample_api "explain" ["util.py"] [] None) initial eq_refl) as H.
  apply H.
Defined.

(* ===================================================================== *)
(** ** Further properties: the protocol emitter and the block stack *)
(* ===================================================================== *)

Lemma dict_get_app {V} (d : Dict V) k' v k :
  dict_get (d ++ [(k', v)])%list k =
  match dict_get d k with
  | Some x => Some x
  | None => if k' =? k then Some v else None
  end.
Proof.
  induction d as [|[k0 v0] d IH]; cbn; [reflexivity|].
  now destruct (k0 =? k).
Qed.

(** X4. [_dump] either rejects its keyword arguments or prints one
    record. Keyword arguments with a key [self] or [method] collide with
    the parameters of [_dump]: the call raises a type error and nothing
    is printed. Otherwise exactly one record is printed: it has the
    keyword arguments, in order and with their values, followed by the
    key [method] with the name of the method; the block stack and the
    requests are untouched. The assertion of the body never fails. *)
Theorem _dump_record method kwargs s :
  (if has_key kwargs "self" || has_key kwargs "method"
   then _dump method kwargs s = (Raise TypeError, s)
   else exists e,
       _dump method kwargs s = (Ok tt, emit [e] s)
       /\ dict_get e "method" = Some (JStr method)
       /\ (forall k, k <> "method" -> dict_get e k = dict_get kwargs k)
       /\ map fst e = (map fst kwargs ++ ["method"])%list)
  /\ fst (_dump method kwargs s) <> Raise AssertionError.
Proof.
  unfold _dump.
  destruct (has_key kwargs "self"); cbn [orb]; [split; [reflexivity|discriminate]|].
  destruct (has_key kwargs "method") eqn:Hkey; [split; [reflexivity|discriminate]|].
  split; [|discriminate].
  exists (kwargs ++ [("method", JStr method)])%list.
  split; [reflexivity|]. split; [|split].
  - rewrite dict_get_app. unfold has_key in Hkey.
    now destruct (dict_get kwargs "method").
  - intros k Hk. rewrite dict_get_app.
    destruct (dict_get kwargs k); [reflexivity|].
    destruct ("method" =? k) eqn:E; [|reflexivity].
    apply String.eqb_eq in E. now elim Hk.
  - now rewrite map_app.
Qed.

Lemma _dump_record_witness :
  exists e,
    _dump "log" [("content", JStr "hi")] initial = (Ok tt, emit [e] initial)
    /\ dict_get e "method" = Some (JStr "log")
    /\ (forall k, k <> "method" ->
                  dict_get e k = dict_get [("content", JStr "hi")] k)
    /\ map fst e = ["content"; "method"].
Proof.
  exact (proj1 (_dump_record "log" [("content", JStr "hi")] initial)).
Defined.

Lemma start_blocks_run types :
  forall tags s,
    Forall2 (fun type_ tag => dict_get TAGS type_ = Some tag) types tags ->
    start_blocks types s =
    (Ok tt, {| _blocks := (_blocks s ++ tags)%list;
               stdout := (stdout s ++ map open_tag tags)%list;
               requests := requests s |}).
Proof.
  induction types as [|type_ types IH]; intros tags s Htags; inversion Htags; subst.
  - cbn. unfold ret. destruct s; cbn. now rewrite !app_nil_r.
  - cbn [start_blocks]. unfold bind. rewrite start_block_run.
    match goal with H : dict_get TAGS type_ = Some _ |- _ => rewrite H end.
    rewrite (IH _ _ H3). cbn [_blocks stdout requests map].
    rewrite <- !app_assoc. reflexivity.
Qed.

Lemma end_blocks_run tags :
  forall bs out rq,
    end_blocks (length tags)
      {| _blocks := (bs ++ tags)%list; stdout := out; requests := rq |} =
    (Ok tt, {| _blocks := bs;
               stdout := (out ++ map close_tag (rev tags))%list;
               requests := rq |}).
Proof.
  induction tags as [|tag tags IH] using rev_ind; intros bs out rq.
  - cbn. unfold ret. now rewrite !app_nil_r.
  - rewrite length_app, Nat.add_comm. cbn [length Nat.add end_blocks].
    unfold bind. rewrite app_assoc, end_block_pop. rewrite IH.
    rewrite rev_app_distr. cbn [rev app map]. rewrite <- app_assoc. reflexivity.
Qed.

(** X5. Blocks nest. Opening a block for each of a list of known types and
    then closing as many prints the open tags in order and then the close
    tags in the reverse order, each close tag being that of the innermost
    block still open, and leaves the block stack as it was. *)
Theorem blocks_nest types tags s :
  Forall2 (fun type_ tag => dict_get TAGS type_ = Some tag) types tags ->
  (start_blocks types ;; end_blocks (length types)) s =
  (Ok tt, emit (map open_tag tags ++ map close_tag (rev tags))%list s).
Proof.
  intros Htags. unfold bind. rewrite (start_blocks_run types tags s Htags).
  rewrite (Forall2_length Htags), end_blocks_run.
  unfold emit. now rewrite app_assoc.
Qed.

Lemma blocks_nest_witness :
  (start_blocks ["meta"; "think"] ;; end_blocks 2) initial =
  (Ok tt, emit [PushChat "<metadata>"; PushChat "<collapse>";
                PushChat "</collapse>"; PushChat "</metadata>"] initial).
Proof.
  apply (blocks_nest ["meta"; "think"] ["metadata"; "collapse"] initial).
  repeat constructor.
Defined.

(** X6. Closing more blocks than are open: the open blocks are closed,
    innermost first, the stack is left empty, and the next [end_block]
    fails its assertion; the closes before it have been printed. *)
Theorem end_blocks_too_many n bs out rq :
  length bs < n ->
  end_blocks n {| _blocks := bs; stdout := out; requests := rq |} =
  (Raise AssertionError,
   {| _blocks := []; stdout := (out ++ map close_tag (rev bs))%list;
      requests := rq |}).
Proof.
  revert n out. induction bs as [|tag bs IH] using rev_ind; intros n out Hn.
  - destruct n as [|n]; [inversion Hn|]. cbn. now rewrite app_nil_r.
  - rewrite length_app in Hn. cbn [length] in Hn.
    destruct n as [|n]; [lia|]. cbn [end_blocks]. unfold bind.
    rewrite end_block_pop. rewrite IH by lia.
    rewrite rev_app_distr. cbn [rev app map]. now rewrite <- app_assoc.
Qed.

Lemma end_blocks_too_many_witness :
  end_blocks 2 {| _blocks := ["metadata"]; stdout := []; requests := [] |} =
  (Raise AssertionError,
   {| _blocks := []; stdout := [PushChat "</metadata>"]; requests := [] |}).
Proof.
  apply (end_blocks_too_many 2 ["metadata"] [] []). cbn. lia.
Defined.

(** X7. [push_block] with a known type prints the open tag, the text and
    the close tag of that type and leaves the block stack as it was; with
    any other type it raises the key error of the type, having printed
    nothing. The known types are [think] and [meta], and [push_meta] is
    [push_block] with the type [meta]. *)
Theorem push_block_run type_ text s :
  match dict_get TAGS type_ with
  | Some tag =>
      ((type_ = "think" /\ tag = "collapse") \/ (type_ = "meta" /\ tag = "metadata"))
      /\ push_block type_ text s =
         (Ok tt, emit [open_tag tag; PushChat text; close_tag tag] s)
  | None => push_block type_ text s = (Raise (KeyError type_), s)
  end
  /\ push_meta text s = push_block "meta" text s.
Proof.
  split; [|reflexivity].
  pose proof (start_block_run type_ s) as Hstart.
  destruct (dict_get TAGS type_) as [tag|] eqn:Htag.
  - split.
    + unfold TAGS in Htag. cbn [dict_get] in Htag.
      destruct ("think" =? type_) eqn:E1.
      * apply String.eqb_eq in E1. injection Htag as <-. now left.
      * destruct ("meta" =? type_) eqn:E2; [|discriminate].
        apply String.eqb_eq in E2. injection Htag as <-. now right.
    + unfold push_block. unfold bind at 1. rewrite Hstart.
      unfold bind at 1. rewrite Emits_push_to_chat. unfold emit at 1.
      cbn [_blocks stdout requests]. rewrite end_block_pop.
      unfold emit, open_tag, close_tag. rewrite <- !app_assoc. reflexivity.
  - unfold push_block. unfold bind at 1. now rewrite Hstart.
Qed.

(* ===================================================================== *)
(** ** Further properties: the streaming bridge *)
(* ===================================================================== *)

(** The loop prints, chunk by chunk, what [chunk_records] says, and ends
    as [stream_result] says. *)
Lemma stream_loop_records model stream :
  forall th,
    Emits (stream_loop model th stream) (stream_result th stream)
          (stream_records model th stream).
Proof.
  induction stream as [|chunk stream' IH]; intros th.
  - apply Emits_ret.
  - pose proof (IH true) as Ht. pose proof (IH false) as Hf.
    destruct chunk as [[|[[re co]] cs] us].
    + cbn. apply Emits_bind_raise. unfold first_choice. cbn. apply Emits_raise.
    + cbn [stream_loop stream_records stream_result has_choice first_choice
           chunk_records flag_after
           OpenAI.delta OpenAI.reasoning OpenAI.content OpenAI.usage
           OpenAI.choices].
      destruct (Py.truthy re) eqn:Hre, th, (Py.truthy co) eqn:Hco,
        us as [u|];
        cbn [app];
        (eapply eq_rect; [emits|]); cbn [app]; rewrite ?app_nil_r;
        reflexivity.
Qed.

Lemma stream_app model s2 :
  forall s1 th,
    stream_result th (s1 ++ s2) =
    match stream_result th s1 with
    | Ok th' => stream_result th' s2
    | Raise e => Raise e
    end
    /\ stream_records model th (s1 ++ s2) =
       (stream_records model th s1
        ++ match stream_result th s1 with
           | Ok th' => stream_records model th' s2
           | Raise _ => []
           end)%list.
Proof.
  induction s1 as [|chunk s1 IH]; intros th; cbn [app stream_result stream_records].
  - now split.
  - destruct (has_choice chunk).
    + destruct (IH (flag_after th chunk)) as [-> ->].
      split; [reflexivity|]. now rewrite app_assoc.
    + now split.
Qed.

Lemma stream_result_ok stream :
  forall th,
    stream_result th stream =
    if forallb has_choice stream then Ok (fold_left flag_after stream th)
    else Raise IndexError.
Proof.
  induction stream as [|chunk stream IH]; intros th; cbn; [reflexivity|].
  destruct (has_choice chunk); cbn; [apply IH|reflexivity].
Qed.

Lemma chunk_records_texts model th chunk :
  exists texts, chunk_records model th chunk = map PushChat texts.
Proof.
  unfold chunk_records, usage_metadata.
  destruct (OpenAI.choices chunk) as [|c _]; [now exists []|]. cbn zeta.
  destruct (Py.truthy (OpenAI.reasoning (OpenAI.delta c))), th,
    (Py.truthy (OpenAI.content (OpenAI.delta c))), (OpenAI.usage chunk);
    cbn [app];
    match goal with
    | |- exists texts, ?l = _ =>
        let rec go l :=
          lazymatch l with
          | PushChat ?t :: ?l' => let r := go l' in constr:(t :: r)
          | [] => constr:(@nil string)
          end in
        let ts := go l in exists ts; reflexivity
    end.
Qed.

Lemma stream_records_texts model stream :
  forall th, exists texts, stream_records model th stream = map PushChat texts.
Proof.
  induction stream as [|chunk stream IH]; intros th; cbn [stream_records].
  - now exists [].
  - destruct (has_choice chunk); [|now exists []].
    destruct (chunk_records_texts model th chunk) as [t1 ->].
    destruct (IH (flag_after th chunk)) as [t2 ->].
    exists (t1 ++ t2)%list. now rewrite map_app.
Qed.

(** X8. The loop handles a stream piece by piece: running it on two
    streams one after the other, the second from the flag the first ends
    with, is running it on their concatenation. So what has been printed
    for the chunks received so far never depends on the chunks to come. *)
Theorem stream_loop_app model th s1 s2 s :
  stream_loop model th (s1 ++ s2) s =
  (th' <- stream_loop model th s1 ;; stream_loop model th' s2) s.
Proof.
  unfold bind. rewrite !stream_loop_records.
  destruct (stream_app model s2 s1 th) as [-> ->].
  destruct (stream_result th s1) as [th'|e].
  - rewrite stream_loop_records. now rewrite emit_emit.
  - now rewrite app_nil_r.
Qed.

(** X9. The outcome of the bridge. Exactly one request is sent. When every
    chunk has a choice the bridge returns, and it has printed [push_chat]
    records followed by the terminate record, which is the last one. When
    some chunk has no choice it raises an index error: the [push_chat]
    records of the chunks before that one have been printed, the rest of
    the stream is not looked at, and no terminate record is printed. *)
Theorem call_llm_outcome api model messages stream s :
  exists texts,
    stream_records model false stream = map PushChat texts
    /\ call_llm api model messages stream s =
       if forallb has_choice stream
       then (Ok tt, emit (map PushChat texts ++ [TerminateChat])
                      (sent (request_of api model messages) s))
       else (Raise IndexError,
             emit (map PushChat texts) (sent (request_of api model messages) s)).
Proof.
  destruct (stream_records_texts model stream false) as [texts Htexts].
  exists texts. split; [exact Htexts|].
  rewrite (call_llm_run api model messages stream _ _
             (stream_loop_records model stream false)).
  rewrite stream_result_ok, Htexts.
  now destruct (forallb has_choice stream).
Qed.

(** X10. A chunk without a choice cuts the stream: whatever follows it,
    the bridge raises the index error having printed exactly what the
    loop prints for the chunks before it. *)
Theorem choiceless_chunk_cuts api model messages pre bad post s :
  forallb has_choice pre = true ->
  OpenAI.choices bad = [] ->
  exists th s1,
    stream_loop model false pre (sent (request_of api model messages) s)
    = (Ok th, s1)
    /\ call_llm api model messages (pre ++ bad :: post) s = (Raise IndexError, s1).
Proof.
  intros Hpre Hbad.
  exists (fold_left flag_after pre false).
  eexists. split.
  - rewrite stream_loop_records, stream_result_ok, Hpre. reflexivity.
  - rewrite (call_llm_run api model messages _ _ _
               (stream_loop_records model _ false)).
    destruct (stream_app model (bad :: post) pre false) as [-> ->].
    rewrite stream_result_ok, Hpre.
    cbn [stream_result stream_records]. unfold has_choice. rewrite Hbad.
    now rewrite app_nil_r.
Qed.

Lemma choiceless_chunk_cuts_witness :
  call_llm (sample_api "explain" [] [] (Some [])) the_model []
    ([reasoning_chunk "Hmm"]
     ++ {| OpenAI.choices := []; OpenAI.usage := None |} :: [content_chunk "42"])
    initial
  = (Raise IndexError,
     emit [PushChat "<collapse>"; PushChat "Hmm"]
       (sent (request_of (sample_api "explain" [] [] (Some [])) the_model [])
             initial)).
Proof.
  destruct (choiceless_chunk_cuts (sample_api "explain" [] [] (Some []))
              the_model [] [reasoning_chunk "Hmm"]
              {| OpenAI.choices := []; OpenAI.usage := None |}
              [content_chunk "42"] initial eq_refl eq_refl)
    as (th & s1 & Hloop & Hcall).
  rewrite Hcall. f_equal.
  injection Hloop as _ <-. reflexivity.
Defined.

Lemma count_app t l1 l2 :
  count_push_chat t (l1 ++ l2) = count_push_chat t l1 + count_push_chat t l2.
Proof. unfold count_push_chat. now rewrite filter_app, length_app. Qed.

Lemma count_text t c l :
  count_push_chat t (PushChat c :: l)
  = (if c =? t then 1 else 0) + count_push_chat t l.
Proof.
  unfold count_push_chat. cbn [filter is_push_chat PushChat].
  cbn [String.eqb Ascii.eqb Bool.eqb andb].
  rewrite andb_true_r. now destruct (c =? t).
Qed.

Lemma count_usage_metadata t n model l :
  t = "<collapse>" \/ t = "</collapse>" ->
  count_push_chat t (usage_metadata n model :: l) = count_push_chat t l.
Proof.
  intros [-> | ->]; unfold usage_metadata; rewrite count_text; reflexivity.
Qed.

Lemma text_is_not t t' : t <> t' -> (t =? t') = false.
Proof. intros H. now apply String.eqb_neq. Qed.

(** One chunk keeps the balance of the tags. *)
Lemma chunk_balance model th chunk :
  (forall t, In t (chunk_texts chunk) -> t <> "<collapse>" /\ t <> "</collapse>") ->
  count_push_chat "<collapse>" (chunk_records model th chunk) + b2n th
  = count_push_chat "</collapse>" (chunk_records model th chunk)
    + b2n (flag_after th chunk).
Proof.
  unfold chunk_texts, chunk_records, flag_after.
  destruct (OpenAI.choices chunk) as [|c _]; [reflexivity|]. cbn zeta.
  destruct (OpenAI.delta c) as [re co]. cbn [OpenAI.reasoning OpenAI.content].
  intros Hfree.
  assert (Hre : Py.truthy re = true ->
                (text_of re =? "<collapse>") = false
                /\ (text_of re =? "</collapse>") = false).
  { intros H. rewrite H in Hfree. destruct re as [r|]; [|discriminate H].
    destruct (Hfree r) as [H1 H2]; [now left|].
    split; now apply text_is_not. }
  assert (Hco : Py.truthy co = true ->
                (text_of co =? "<collapse>") = false
                /\ (text_of co =? "</collapse>") = false).
  { intros H. rewrite H in Hfree. destruct co as [t|]; [|discriminate H].
    destruct (Hfree t) as [H1 H2]; [apply in_or_app; right; now left|].
    split; now apply text_is_not. }
  clear Hfree.
  destruct (Py.truthy re), (Py.truthy co);
    try (destruct (Hre eq_refl) as [Hr1 Hr2]);
    try (destruct (Hco eq_refl) as [Hc1 Hc2]);
    destruct th, (OpenAI.usage chunk); cbn [app];
    repeat first [ rewrite count_text
                 | rewrite count_usage_metadata by (now left)
                 | rewrite count_usage_metadata by (now right) ];
    rewrite ?Hr1, ?Hr2, ?Hc1, ?Hc2; reflexivity.
Qed.

Lemma records_balance model stream :
  forall th th',
    tag_free stream ->
    stream_result th stream = Ok th' ->
    count_push_chat "<collapse>" (stream_records model th stream) + b2n th
    = count_push_chat "</collapse>" (stream_records model th stream) + b2n th'.
Proof.
  induction stream as [|chunk stream IH]; intros th th' Hfree Hres;
    cbn [stream_records stream_result] in *.
  - now injection Hres as <-.
  - destruct (has_choice chunk); [|discriminate Hres].
    rewrite !count_app.
    pose proof (chunk_balance model th chunk
                  (fun t Ht => Hfree chunk t (or_introl eq_refl) Ht)) as Hc.
    pose proof (IH (flag_after th chunk) th'
                  (fun c t Hc' Ht => Hfree c t (or_intror Hc') Ht) Hres) as Hs.
    lia.
Qed.

(** X11. The bridge keeps the balance of the tags of the collapse block.
    When no text of the stream is itself one of the two tags, a run of
    the loop that ends normally has printed as many open tags, counting
    one for a flag that was set at the start, as close tags, counting one
    for a flag that is set at the end: a block is left open exactly when
    the loop ends with the flag set. *)
Theorem bridge_tag_balance model th stream s th' s' :
  tag_free stream ->
  stream_loop model th stream s = (Ok th', s') ->
  exists evs,
    s' = emit evs s
    /\ count_push_chat "<collapse>" evs + b2n th
       = count_push_chat "</collapse>" evs + b2n th'.
Proof.
  intros Hfree Hrun. rewrite stream_loop_records in Hrun.
  injection Hrun as Hres <-.
  exists (stream_records model th stream). split; [reflexivity|].
  now apply records_balance.
Qed.

Lemma bridge_tag_balance_witness :
  exists evs,
    emit [PushChat "<collapse>"; PushChat "Let's "; PushChat "think";
          PushChat "</collapse>"; PushChat "Answer: "; PushChat "42";
          usage_metadata 10 the_model] initial
    = emit evs initial
    /\ count_push_chat "<collapse>" evs + b2n false
       = count_push_chat "</collapse>" evs + b2n false.
Proof.
  apply (bridge_tag_balance the_model false scenario_stream initial false).
  - intros chunk t Hin Ht. cbn in Hin.
    repeat (destruct Hin as [<-|Hin]; [cbn in Ht; intuition (subst; discriminate)|]).
    destruct Hin.
  - reflexivity.
Defined.

(** X12. A stream that ends with answer content leaves nothing open. When
    every chunk has a choice, no text is itself a tag and the last chunk
    carries content, the bridge returns, and before the terminate record
    it has printed as many close tags as open tags. *)
Theorem content_closes_the_block api model messages pre last s :
  tag_free (pre ++ [last]) ->
  forallb has_choice (pre ++ [last]) = true ->
  carries_content last = true ->
  exists evs,
    call_llm api model messages (pre ++ [last]) s
    = (Ok tt, emit (evs ++ [TerminateChat])
                (sent (request_of api model messages) s))
    /\ stream_loop model false (pre ++ [last]) s = (Ok false, emit evs s)
    /\ count_push_chat "<collapse>" evs = count_push_chat "</collapse>" evs.
Proof.
  intros Hfree Hall Hlast.
  assert (Hres : stream_result false (pre ++ [last]) = Ok false).
  { rewrite stream_result_ok, Hall, fold_left_app. cbn [fold_left].
    unfold flag_after, carries_content in *.
    destruct (OpenAI.choices last) as [|c _]; [discriminate Hlast|].
    now rewrite Hlast. }
  exists (stream_records model false (pre ++ [last])).
  pose proof (stream_loop_records model (pre ++ [last]) false) as Hloop.
  rewrite Hres in Hloop. split; [|split].
  - now rewrite (call_llm_run api model messages _ _ _ Hloop).
  - apply Hloop.
  - pose proof (records_balance model _ false false Hfree Hres) as H.
    cbn [b2n] in H. lia.
Qed.

Lemma content_closes_the_block_witness :
  exists evs,
    call_llm (sample_api "explain" [] [] (Some [])) the_model []
      ([reasoning_chunk "Hmm"] ++ [content_chunk "42"]) initial
    = (Ok tt, emit (evs ++ [TerminateChat])
                (sent (request_of (sample_api "explain" [] [] (Some []))
                         the_model []) initial))
    /\ stream_loop the_model false
         ([reasoning_chunk "Hmm"] ++ [content_chunk "42"]) initial
       = (Ok false, emit evs initial)
    /\ count_push_chat "<collapse>" evs = count_push_chat "</collapse>" evs.
Proof.
  apply (content_closes_the_block (sample_api "explain" [] [] (Some []))
           the_model [] [reasoning_chunk "Hmm"] (content_chunk "42") initial).
  - intros chunk t Hin Ht. cbn in Hin.
    repeat (destruct Hin as [<-|Hin]; [cbn in Ht; intuition (subst; discriminate)|]).
    destruct Hin.
  - reflexivity.
  - reflexivity.
Defined.

(** X13. A chunk that has a choice and carries neither reasoning nor
    content (absent or empty) nor usage leaves no trace: wherever it
    stands in the stream, the loop behaves as on the stream without it. *)
Theorem silent_chunk_invisible model th pre chunk post s :
  silent chunk = true ->
  stream_loop model th (pre ++ chunk :: post) s
  = stream_loop model th (pre ++ post) s.
Proof.
  intros Hsilent.
  assert (Hc : has_choice chunk = true
               /\ (forall t, flag_after t chunk = t)
               /\ (forall t, chunk_records model t chunk = [])).
  { unfold silent, has_choice, flag_after, chunk_records in *.
    destruct (OpenAI.choices chunk) as [|c _]; [discriminate|].
    destruct (OpenAI.usage chunk); [discriminate|].
    apply andb_true_iff in Hsilent as [Hre Hco].
    apply negb_true_iff in Hre, Hco. cbn zeta. rewrite Hre, Hco.
    repeat split. }
  destruct Hc as (Hhas & Hflag & Hrec).
  rewrite !stream_loop_records.
  destruct (stream_app model (chunk :: post) pre th) as [-> ->].
  destruct (stream_app model post pre th) as [-> ->].
  cbn [stream_result stream_records]. rewrite Hhas.
  destruct (stream_result th pre) as [th1|e]; [|reflexivity].
  now rewrite Hflag, Hrec.
Qed.

Lemma silent_chunk_invisible_witness :
  stream_loop the_model false
    ([reasoning_chunk "Hmm"] ++ reasoning_chunk "" :: [content_chunk "42"]) initial
  = stream_loop the_model false
      ([reasoning_chunk "Hmm"] ++ [content_chunk "42"]) initial.
Proof.
  apply (silent_chunk_invisible the_model false [reasoning_chunk "Hmm"]
           (reasoning_chunk "") [content_chunk "42"] initial).
  reflexivity.
Defined.

Lemma merged_app {A} (a1 b1 c1 a2 b2 c2 : list A) :
  merged a1 b1 c1 -> merged a2 b2 c2 ->
  merged (a1 ++ a2) (b1 ++ b2) (c1 ++ c2).
Proof.
  intros H1 H2. induction H1; cbn; [exact H2| |]; now constructor.
Qed.

Lemma chunk_merged model th chunk :
  exists added,
    Forall (added_by_bridge model) added
    /\ merged (map PushChat (chunk_texts chunk)) added
              (chunk_records model th chunk).
Proof.
  unfold chunk_texts, chunk_records.
  destruct (OpenAI.choices chunk) as [|c _].
  { exists []. split; constructor. }
  cbn zeta. destruct (OpenAI.delta c) as [re co].
  cbn [OpenAI.reasoning OpenAI.content].
  assert (Hopen : added_by_bridge model (PushChat "<collapse>")) by now left.
  assert (Hclose : added_by_bridge model (PushChat "</collapse>"))
    by (right; now left).
  assert (Husage : forall n, added_by_bridge model (usage_metadata n model))
    by (intros n; right; right; now exists n).
  destruct (Py.truthy re) eqn:Hre; [destruct re as [r|]; [|discriminate Hre]|];
    (destruct (Py.truthy co) eqn:Hco; [destruct co as [t|]; [|discriminate Hco]|]);
    destruct th, (OpenAI.usage chunk); cbn [app map text_of];
    eexists; (split; [|repeat first [ apply merged_nil
                                    | apply merged_left
                                    | apply merged_right ]]);
    repeat first [apply Forall_cons | apply Forall_nil]; auto.
Qed.

Lemma records_merged model stream :
  forall th, exists added,
    Forall (added_by_bridge model) added
    /\ merged (map PushChat (forwarded_texts stream)) added
              (stream_records model th stream).
Proof.
  induction stream as [|chunk stream IH]; intros th;
    cbn [forwarded_texts stream_records].
  - exists []. split; constructor.
  - destruct (has_choice chunk); [|exists []; split; constructor].
    destruct (chunk_merged model th chunk) as (a1 & Ha1 & Hm1).
    destruct (IH (flag_after th chunk)) as (a2 & Ha2 & Hm2).
    exists (a1 ++ a2)%list. split; [now apply Forall_app|].
    rewrite map_app. now apply merged_app.
Qed.

(** X14. The bridge forwards every text, once, in arrival order. What the
    loop prints is the non-empty reasoning and content texts of the
    chunks (within a chunk the reasoning first), in the order of the
    stream, shuffled together with records the bridge adds of its own,
    which are tags of the collapse block and usage metadata only: no text
    is dropped, repeated or moved. *)
Theorem bridge_forwards_in_order model th stream s :
  exists added evs,
    snd (stream_loop model th stream s) = emit evs s
    /\ merged (map PushChat (forwarded_texts stream)) added evs
    /\ Forall (added_by_bridge model) added.
Proof.
  destruct (records_merged model stream th) as (added & Hadded & Hm).
  exists added, (stream_records model th stream).
  rewrite stream_loop_records. repeat split; assumption.
Qed.

(* ===================================================================== *)
(** ** Further properties: the entry point *)
(* ===================================================================== *)

(** X15. The outcome of the entry point, in full. An opened file that
    cannot be read: the error of the read, nothing printed, no request.
    Else, no terminal snapshot: a type error after the two metadata
    records and the first two log records, no request. Else the third log
    record is printed and then one request is sent; the bridge follows:
    when every chunk has a choice the entry point returns and the
    terminate record is the last record, otherwise it raises an index
    error and no terminate record is printed. So a terminate record is
    printed exactly when the entry point returns. *)
Theorem extension_outcome fs api stream s :
  match first_unreadable fs api with
  | Some f => extension fs api stream s = (Raise (OSError (_fs_path f)), s)
  | None =>
      match terminal_snapshot api with
      | None => extension fs api stream s
                = (Raise TypeError, emit (preamble fs api) s)
      | Some lines =>
          let s1 :=
            sent (request_of api the_model
                    (build_messages the_model api (context_of fs api)))
              (emit (preamble fs api
                     ++ [Log ("## Terminal " ++ Py.join Py.nl lines)]) s) in
          exists texts,
            extension fs api stream s =
            if forallb has_choice stream
            then (Ok tt, emit (map PushChat texts ++ [TerminateChat]) s1)
            else (Raise IndexError, emit (map PushChat texts) s1)
      end
  end.
Proof.
  pose proof (build_context_run fs api) as Hctx.
  unfold extension. destruct (first_unreadable fs api) as [f|].
  - unfold bind. rewrite Hctx. now rewrite emit_nil.
  - fold (context_of fs api) in Hctx.
    destruct (terminal_snapshot api) as [lines|].
    + cbn zeta.
      destruct (stream_records_texts the_model stream false) as [texts Htexts].
      exists texts.
      unfold bind at 1. rewrite Hctx.
      unfold bind at 1. rewrite Emits_log.
      unfold bind at 1. rewrite Emits_log.
      unfold bind at 1. unfold ret at 1.
      unfold bind at 1. rewrite Emits_log.
      rewrite (call_llm_run api the_model _ stream _ _
                 (stream_loop_records the_model stream false)).
      rewrite stream_result_ok, Htexts, !emit_emit.
      now destruct (forallb has_choice stream).
    + unfold bind at 1. rewrite Hctx.
      unfold bind at 1. rewrite Emits_log.
      unfold bind at 1. rewrite Emits_log.
      unfold bind, raise. rewrite !emit_emit. reflexivity.
Qed.

(* ===================================================================== *)
(** ** Further properties: prompts and paths *)
(* ===================================================================== *)

Lemma lstrip_blank_app w p : blank w = true -> Py.lstrip (w ++ p) = Py.lstrip p.
Proof.
  induction w as [|c w IH]; cbn [blank append Py.lstrip]; [reflexivity|].
  intros H. apply andb_true_iff in H as [Hc Hw]. rewrite Hc. now apply IH.
Qed.

Lemma strip_blank p : blank p = true -> Py.strip p = "".
Proof.
  intros H. unfold Py.strip. rewrite <- (append_nil_r p).
  now rewrite lstrip_blank_app.
Qed.

Lemma startswith_head c d s :
  Py.startswith (String c s) (String d "") = Ascii.eqb d c.
Proof.
  unfold Py.startswith. cbn [prefix].
  destruct (ascii_dec d c) as [->|Hne].
  - rewrite Ascii.eqb_refl. now destruct s.
  - symmetry. now apply Ascii.eqb_neq.
Qed.

(** How the stripped prompt starts, by the first character of the prompt
    that is not white space. *)
Lemma routing_by_first_character w c rest :
  blank w = true -> Py.isspace c = false ->
  Py.startswith (Py.strip (w ++ String c rest)) "/" = Ascii.eqb "/" c.
Proof.
  intros Hw Hc. unfold Py.strip. rewrite lstrip_blank_app by exact Hw.
  cbn [Py.lstrip]. rewrite Hc.
  destruct (rstrip_head c rest Hc) as [t ->]. apply startswith_head.
Qed.

(** X16. Routing looks at the first character of the prompt that is not
    white space, and sends the prompt as it came. When that character is
    a slash the list is the system message, the history and the user
    message with the raw prompt: the white space and the slash are still
    in it, and no context message is added. When it is another character,
    or the prompt is blank or empty, the list has the context message
    after the system message. *)
Theorem routing_by_first_nonblank model api context :
  (forall w rest,
      blank w = true ->
      build_messages model (with_prompt api (w ++ "/" ++ rest)) context =
      (system_message model :: map to_dict (chat_history api)
       ++ [user_message (w ++ "/" ++ rest)])%list)
  /\ (forall w c rest,
         blank w = true -> Py.isspace c = false -> c <> "/"%char ->
         build_messages model (with_prompt api (w ++ String c rest)) context =
         (system_message model :: user_message context
          :: map to_dict (chat_history api)
          ++ [user_message (w ++ String c rest)])%list)
  /\ (forall p,
         blank p = true ->
         build_messages model (with_prompt api p) context =
         (system_message model :: user_message context
          :: map to_dict (chat_history api) ++ [user_message p])%list).
Proof.
  split; [|split].
  - intros w rest Hw. unfold build_messages. cbn [prompt with_prompt chat_history].
    change ("/" ++ rest) with (String "/" rest).
    rewrite (routing_by_first_character w "/" rest Hw eq_refl). reflexivity.
  - intros w c rest Hw Hc Hne. unfold build_messages.
    cbn [prompt with_prompt chat_history].
    rewrite (routing_by_first_character w c rest Hw Hc).
    assert (E : Ascii.eqb "/" c = false).
    { apply Ascii.eqb_neq. intros H. now elim Hne. }
    rewrite E. reflexivity.
  - intros p Hp. unfold build_messages. cbn [prompt with_prompt chat_history].
    rewrite (strip_blank p Hp). reflexivity.
Qed.

Lemma routing_by_first_nonblank_witness :
  build_messages the_model
    (with_prompt (sample_api "" [] [] None) ("  " ++ "/" ++ "fix"))
    sample_context
  = [system_message the_model; user_message "  /fix"].
Proof.
  apply (proj1 (routing_by_first_nonblank the_model (sample_api "" [] [] None)
                  sample_context) "  " "fix").
  reflexivity.
Defined.

Lemma rstrip_app a b : Py.rstrip b <> "" -> Py.rstrip (a ++ b) = a ++ Py.rstrip b.
Proof.
  intros Hb. induction a as [|c a IH]; cbn [append Py.rstrip]; [reflexivity|].
  rewrite IH. destruct (a ++ Py.rstrip b) eqn:E; [|reflexivity].
  destruct a; cbn in E; [now elim Hb|discriminate E].
Qed.

Lemma rstrip_app_nonempty a b : Py.rstrip b <> "" -> Py.rstrip (a ++ b) <> "".
Proof.
  intros Hb. rewrite rstrip_app by exact Hb.
  destruct a; cbn; [exact Hb|discriminate].
Qed.

Lemma join_cons sep x y l :
  Py.join sep (x :: y :: l) = x ++ sep ++ Py.join sep (y :: l).
Proof. reflexivity. Qed.

(** The strip of a text of lines whose first line is empty and whose
    second line holds a name between two texts. *)
Lemma strip_template c pre name post line lines tail :
  Py.isspace c = false ->
  Py.rstrip (post ++ Py.nl ++ Py.join Py.nl (line :: lines)) = tail ->
  tail <> "" ->
  Py.strip (Py.join Py.nl ("" :: (String c pre ++ name ++ post) :: line :: lines))
  = String c pre ++ name ++ tail.
Proof.
  intros Hc Htail Hne. rewrite !join_cons.
  set (R := Py.join Py.nl (line :: lines)) in *.
  assert (E : "" ++ Py.nl ++ (String c pre ++ name ++ post) ++ Py.nl ++ R
              = Py.nl ++ String c (pre ++ name ++ post ++ Py.nl ++ R)).
  { cbn [append]. now rewrite !append_assoc. }
  rewrite E. unfold Py.strip.
  rewrite (lstrip_blank_app Py.nl _ eq_refl).
  cbn [Py.lstrip]. rewrite Hc.
  change (String c (pre ++ name ++ post ++ Py.nl ++ R))
    with (String c pre ++ name ++ post ++ Py.nl ++ R).
  assert (Hne' : Py.rstrip (post ++ Py.nl ++ R) <> "") by now rewrite Htail.
  rewrite rstrip_app by now apply rstrip_app_nonempty.
  rewrite rstrip_app by exact Hne'.
  now rewrite Htail.
Qed.

(** X17. The system prompt names the model as it is given. For every
    model name, whatever its characters (white space, braces, the empty
    name), the prompt is the same opening text, the name, and the same
    closing text: the final strip never reaches the name. *)
Theorem system_prompt_names_model model :
  get_system_prompt model =
  "You are an intelligent programmer, powered by " ++ model ++ system_prompt_rest.
Proof.
  unfold get_system_prompt.
  apply (strip_template "Y"). 
  - reflexivity.
  - vm_compute. reflexivity.
  - discriminate.
Qed.

Lemma plain_char_repr c :
  plain_char c = true ->
  Py.repr_char Py.squote c = String c ""
  /\ Ascii.eqb Py.squote c = false.
Proof.
  unfold plain_char, Py.repr_char. cbn zeta. intros H.
  apply andb_true_iff in H as [H H92]. apply andb_true_iff in H as [H H39].
  apply andb_true_iff in H as [H32 H127].
  apply Nat.leb_le in H32. apply Nat.ltb_lt in H127.
  apply negb_true_iff, Nat.eqb_neq in H39, H92.
  assert (Hq : Ascii.eqb c Py.squote = false).
  { apply Ascii.eqb_neq. intros ->. now apply H39. }
  assert (Hb : Ascii.eqb c Py.backslash = false).
  { apply Ascii.eqb_neq. intros ->. now apply H92. }
  rewrite Hq, Hb. cbn [orb].
  replace (nat_of_ascii c =? 9)%nat with false by (symmetry; apply Nat.eqb_neq; lia).
  replace (nat_of_ascii c =? 10)%nat with false by (symmetry; apply Nat.eqb_neq; lia).
  replace (nat_of_ascii c =? 13)%nat with false by (symmetry; apply Nat.eqb_neq; lia).
  replace (nat_of_ascii c <? 32)%nat with false by (symmetry; apply Nat.ltb_ge; lia).
  replace (nat_of_ascii c =? 127)%nat with false by (symmetry; apply Nat.eqb_neq; lia).
  replace (nat_of_ascii c <? 127)%nat with true by (symmetry; apply Nat.ltb_lt; lia).
  cbn [orb]. split; [reflexivity|].
  rewrite Ascii.eqb_sym. exact Hq.
Qed.

Lemma plain_repr_str p : plain p = true -> Py.repr_str p = "'" ++ p ++ "'".
Proof.
  intros Hp.
  assert (H : Py.contains_char Py.squote p = false
              /\ Py.repr_body Py.squote p = p).
  { induction p as [|c p IH]; cbn [plain Py.contains_char Py.repr_body] in *.
    - now split.
    - apply andb_true_iff in Hp as [Hc Hp].
      destruct (plain_char_repr c Hc) as [-> ->].
      destruct (IH Hp) as [-> ->]. now split. }
  destruct H as [Hq Hb]. unfold Py.repr_str. rewrite Hq. cbn [andb].
  now rewrite Hb.
Qed.

(** X18. Plain paths are listed as they are. When every opened path is
    made of printable ASCII characters other than the single quote and
    the backslash, the metadata record of the opened files shows each
    path unchanged between single quotes, in the order of the opened
    files, separated by a comma and a space, between square brackets. *)
Theorem opened_files_listed_verbatim api :
  forallb (fun f => plain (path f)) (opened_files api) = true ->
  opened_files_metadata api =
  PushChat (Py.nl ++ "<metadata> Opened Files: ["
            ++ Py.join ", " (map (fun f => "'" ++ path f ++ "'") (opened_files api))
            ++ "] </metadata>" ++ Py.nl).
Proof.
  intros Hplain. unfold opened_files_metadata, Py.repr_list.
  assert (E : map Py.repr_str (map path (opened_files api))
              = map (fun f => "'" ++ path f ++ "'") (opened_files api)).
  { rewrite map_map. apply map_ext_in. intros f Hf.
    apply plain_repr_str.
    now apply (proj1 (forallb_forall _ _) Hplain f Hf). }
  rewrite E. unfold PushChat. cbn [append]. now rewrite append_assoc.
Qed.

Lemma opened_files_listed_verbatim_witness :
  opened_files_metadata (sample_api "explain" ["util.py"; "src/a b.py"] [] None)
  = PushChat (Py.nl ++ "<metadata> Opened Files: ['util.py', 'src/a b.py'] </metadata>"
              ++ Py.nl).
Proof.
  apply (opened_files_listed_verbatim
           (sample_api "explain" ["util.py"; "src/a b.py"] [] None)).
  reflexivity.
Defined.
